(** * pymargo.core: Address, Engine and Provider over the [_pymargo] extension

    The Python module [pymargo/core.py] is a thin layer over the compiled
    extension [_pymargo].  Every method of [Address], [Engine] and [Provider]
    is embedded here as a computation in a state-and-exception monad whose
    state holds

    - the Python objects that are mutated after construction (the [Engine]
      instances, addressed by reference),
    - the state of the extension, of an arbitrary type [world],
    - the sequence of extension functions called so far.

    The extension itself is a parameter (class [Host]): the Python layer is
    verified against every implementation of it.  A reference implementation
    modelled from the specification is given further down and used for the
    properties that are decided by the extension rather than by the Python
    code. *)

From Stdlib Require Import ZArith String List Bool Lia.
From stdpp Require Import base option gmap strings.

Import ListNotations.
Local Open Scope string_scope.
Local Open Scope list_scope.
Local Open Scope Z_scope.

(** ** Opaque values of the extension *)

Definition margo_instance_id := N.
Definition hg_addr_t := N.
Definition hg_id_t := N.
Definition hg_bulk_t := N.

(** Reference to an [Engine] instance in the Python heap. *)
Definition loc := N.

(** [Handle = _pymargo.Handle]: the class is defined by the extension, the
    Python layer only holds references to its instances. *)
Definition Handle := N.

(** [client = _pymargo.mode.client], [server = _pymargo.mode.server]. *)
Inductive mode := client | server.

(** [pymargo/logging.py]: [level = _pymargo.log_level]. *)
Module logging.
Inductive level := trace | debug | info | warning | error | critical.
End logging.

(** Access modes and transfer directions of [pymargo.bulk]. *)
Inductive bulk_access := read_only | write_only | read_write.
Inductive bulk_op := push | pull.

(** Exceptions that the code under study can see: [RuntimeError] is raised by
    [Engine.register], [MargoException] "by most of the pymargo C++
    functions", [AttributeError] by the interpreter when an attribute that was
    never assigned is read. *)
Inductive exn :=
| RuntimeError (msg : string)
| MargoException (msg : string)
| AttributeError (attr : string).

(** Python objects handed to the extension without being inspected by
    [core.py]: a [Provider] instance (identified by the attributes it is built
    from) or any other object. *)
Inductive PyObject :=
| PyProvider (engine : loc) (provider_id : Z)
| PyOther (tag : string).

(** The [options] argument of [Engine.__init__]: a dictionary (its items, in
    order) or an already serialized string. *)
Definition pydict := list (string * string).
Inductive options := OptDict (d : pydict) | OptStr (s : string).

Definition bytearray := list Byte.byte.

(** ** The functions of [_pymargo] that [core.py] calls *)

Module _pymargo.

Inductive call :=
| init (addr : string) (m : mode) (use_progress_thread : bool)
       (num_rpc_threads : Z) (opt : string)
| finalize (mid : margo_instance_id)
| wait_for_finalize (mid : margo_instance_id)
| is_listening (mid : margo_instance_id)
| push_prefinalize_callback (mid : margo_instance_id) (cb : PyObject)
| push_finalize_callback (mid : margo_instance_id) (cb : PyObject)
| enable_remote_shutdown (mid : margo_instance_id)
| register_on_client (mid : margo_instance_id) (rpc_name : string)
                     (provider_id : Z)
| register (mid : margo_instance_id) (rpc_name : string) (provider_id : Z)
           (obj : PyObject) (method_name : string)
| registered (mid : margo_instance_id) (rpc_name : string)
| registered_provider (mid : margo_instance_id) (rpc_name : string)
                      (provider_id : Z)
| deregister (mid : margo_instance_id) (rpc_id : hg_id_t)
| disable_response (mid : margo_instance_id) (rpc_id : hg_id_t)
                   (disable : bool)
| disabled_response (mid : margo_instance_id) (rpc_id : hg_id_t)
| lookup (mid : margo_instance_id) (straddr : string)
| addr_self (mid : margo_instance_id)
| create (mid : margo_instance_id) (addr : hg_addr_t) (rpc_id : hg_id_t)
| bulk_create (mid : margo_instance_id) (array : bytearray)
              (access : bulk_access)
| bulk_transfer (mid : margo_instance_id) (op : bulk_op)
                (origin_addr : hg_addr_t) (origin_handle : hg_bulk_t)
                (origin_offset : Z) (local_handle : hg_bulk_t)
                (local_offset : Z) (size : Z)
| addr_set_remove (mid : margo_instance_id) (addr : hg_addr_t)
| addr_free (mid : margo_instance_id) (addr : hg_addr_t)
| addr2str (mid : margo_instance_id) (addr : hg_addr_t)
| addr_cmp (mid : margo_instance_id) (a b : hg_addr_t)
| addr_dup (mid : margo_instance_id) (addr : hg_addr_t)
| shutdown_remote_instance (mid : margo_instance_id) (addr : hg_addr_t)
| trace (msg : string) (mid : margo_instance_id)
| debug (msg : string) (mid : margo_instance_id)
| info (msg : string) (mid : margo_instance_id)
| warning (msg : string) (mid : margo_instance_id)
| error (msg : string) (mid : margo_instance_id)
| critical (msg : string) (mid : margo_instance_id)
| set_logger (engine : loc) (logger : PyObject)
| set_log_level (mid : margo_instance_id) (lvl : logging.level)
| Handle_get_mid (h : Handle)
| Handle_get_hg_addr (h : Handle).

(** Type of the value a call returns when it does not raise. *)
Definition ret_ty (c : call) : Type :=
  match c with
  | init _ _ _ _ _ => margo_instance_id
  | is_listening _ | disabled_response _ _ | addr_cmp _ _ _ => bool
  | register_on_client _ _ _ | register _ _ _ _ _ => hg_id_t
  | registered _ _ | registered_provider _ _ _ => option hg_id_t
  | lookup _ _ | addr_self _ | addr_dup _ _ | Handle_get_hg_addr _ =>
      hg_addr_t
  | create _ _ _ => Handle
  | bulk_create _ _ _ => hg_bulk_t
  | addr2str _ _ => string
  | Handle_get_mid _ => margo_instance_id
  | _ => unit
  end.

End _pymargo.

(** What the Python layer runs on: the extension, as a function from a call
    and the extension's state to an outcome and a new state, and
    [json.dumps]. *)
Class Host (world : Type) := {
  ext_call : forall c : _pymargo.call,
      world -> (exn + _pymargo.ret_ty c) * world;
  json_dumps : pydict -> string
}.

(** ** Python objects *)

(** [Engine.EngineLogger]: holds the engine it logs for. *)
Record EngineLogger := { logger_engine : loc }.

(** Attributes of an [Engine] instance.  An attribute that has not been
    assigned yet is [None]. *)
Record EngineObj := {
  _finalized : option bool;
  _mid : option margo_instance_id;
  _logger : option EngineLogger
}.

Definition no_attributes : EngineObj :=
  {| _finalized := None; _mid := None; _logger := None |}.

Definition set_finalized (b : bool) (o : EngineObj) : EngineObj :=
  {| _finalized := Some b; _mid := _mid o; _logger := _logger o |}.
Definition set_mid (m : margo_instance_id) (o : EngineObj) : EngineObj :=
  {| _finalized := _finalized o; _mid := Some m; _logger := _logger o |}.
Definition set_logger_attr (l : EngineLogger) (o : EngineObj) : EngineObj :=
  {| _finalized := _finalized o; _mid := _mid o; _logger := Some l |}.

(** ** The monad *)

Record State (world : Type) := mkState {
  engines : gmap loc EngineObj;
  ext : world;
  calls : list _pymargo.call
}.
Arguments mkState {world} _ _ _.
Arguments engines {world} _.
Arguments ext {world} _.
Arguments calls {world} _.

Definition M (world A : Type) : Type := State world -> (exn + A) * State world.

Declare Scope py_scope.
Delimit Scope py_scope with py.

Section Monad.
Context {world : Type} `{Host world}.

Definition ret {A} (a : A) : M world A := fun s => (inr a, s).

Definition raise {A} (e : exn) : M world A := fun s => (inl e, s).

Definition bind {A B} (m : M world A) (k : A -> M world B) : M world B :=
  fun s =>
    match m s with
    | (inr a, s') => k a s'
    | (inl e, s') => (inl e, s')
    end.

(** Calling a function of the extension: the call is recorded, the
    extension decides the outcome, an exception propagates. *)
Definition invoke (c : _pymargo.call) : M world (_pymargo.ret_ty c) :=
  fun s =>
    let (r, w) := ext_call c (ext s) in
    (r, mkState (engines s) w (calls s ++ [c])).

(** [self.<attr>] on an engine. *)
Definition getattr {A} (self : loc) (name : string)
    (attr : EngineObj -> option A) : M world A :=
  fun s =>
    match engines s !! self ≫= attr with
    | Some v => (inr v, s)
    | None => (inl (AttributeError name), s)
    end.

(** [self.<attr> = v] on an engine. *)
Definition setattr (self : loc) (upd : EngineObj -> EngineObj)
    : M world unit :=
  fun s => (inr tt, mkState (alter upd self (engines s)) (ext s) (calls s)).

End Monad.

Notation "x <- m ;; k" := (bind m (fun x => k))
  (at level 100, m at next level, right associativity) : py_scope.
Notation "m ;; k" := (bind m (fun _ => k))
  (at level 100, right associativity) : py_scope.

Local Open Scope py_scope.

(** ** class Address *)

Module Address.

(** An address is never mutated after [__init__]: it is a value. *)
Record t := {
  _mid : margo_instance_id;
  _hg_addr : hg_addr_t;
  _need_del : bool
}.

(** Default of the [need_del] parameter of [__init__]. *)
Definition need_del_default : bool := true.

Definition __init__ (mid : margo_instance_id) (hg_addr : hg_addr_t)
    (need_del : bool) : t :=
  {| _mid := mid; _hg_addr := hg_addr; _need_del := need_del |}.

Section Methods.
Context {world : Type} `{Host world}.

Definition __del__ (self : t) : M world unit :=
  if _need_del self
  then invoke (_pymargo.addr_free (_mid self) (_hg_addr self))
  else ret tt.

Definition __str__ (self : t) : M world string :=
  invoke (_pymargo.addr2str (_mid self) (_hg_addr self)).

Definition __eq__ (self other : t) : M world bool :=
  invoke (_pymargo.addr_cmp (_mid self) (_hg_addr self) (_hg_addr other)).

Definition copy (self : t) : M world t :=
  a <- invoke (_pymargo.addr_dup (_mid self) (_hg_addr self)) ;;
  ret (__init__ (_mid self) a need_del_default).

Definition shutdown (self : t) : M world unit :=
  invoke (_pymargo.shutdown_remote_instance (_mid self) (_hg_addr self)).

Definition get_internal_hg_addr (self : t) : hg_addr_t := _hg_addr self.

Definition hg_addr (self : t) : hg_addr_t := _hg_addr self.

(** A temporary address that is referenced only while [m] runs: when [m]
    is over, whether it returned or raised, the last reference is gone
    and the interpreter runs the destructor, whose own exceptions are
    discarded. *)
Definition temporary {A} (tmp : t) (m : M world A) : M world A :=
  fun s =>
    let (r, s1) := m s in
    let (_, s2) := __del__ tmp s1 in
    (r, s2).

End Methods.

End Address.

(** [__Handler_get_Address], installed as [Handle.get_addr]. *)
Definition __Handler_get_Address {world : Type} `{Host world} (h : Handle)
    : M world Address.t :=
  mid <- invoke (_pymargo.Handle_get_mid h) ;;
  addr <- invoke (_pymargo.Handle_get_hg_addr h) ;;
  let borrowed := Address.__init__ mid addr false in
  Address.temporary borrowed (Address.copy borrowed).

(** ** class Bulk *)

(** Modelled from the spec: the class [Bulk] of [pymargo/bulk.py] is not among
    the sources; a BulkRegion has an [ownerEngine] and a [regionHandle], and
    [core.py] reads the latter as [_hg_bulk]. *)
Record Bulk := { bulk_engine : loc; _hg_bulk : hg_bulk_t }.

(** ** class Engine *)

Module Engine.

Section Methods.
Context {world : Type} `{Host world}.

Definition __init__ (self : loc) (addr : string) (m : mode)
    (use_progress_thread : bool) (num_rpc_threads : Z) (opts : options)
    : M world unit :=
  setattr self (set_finalized true) ;;
  let opt := match opts with
             | OptDict d => json_dumps d
             | OptStr s => s
             end in
  mid <- invoke (_pymargo.init addr m use_progress_thread
                               num_rpc_threads opt) ;;
  setattr self (set_mid mid) ;;
  setattr self (set_finalized false) ;;
  setattr self (set_logger_attr {| logger_engine := self |}).

Definition finalize (self : loc) : M world unit :=
  mid <- getattr self "_mid" _mid ;;
  invoke (_pymargo.finalize mid) ;;
  setattr self (set_finalized true).

Definition __del__ (self : loc) : M world unit :=
  f <- getattr self "_finalized" _finalized ;;
  if negb f then finalize self else ret tt.

Definition __enter__ (self : loc) : M world loc := ret self.

Definition __exit__ (self : loc) : M world unit :=
  f <- getattr self "_finalized" _finalized ;;
  if negb f then finalize self else ret tt.

Definition wait_for_finalize (self : loc) : M world unit :=
  mid <- getattr self "_mid" _mid ;;
  invoke (_pymargo.wait_for_finalize mid) ;;
  setattr self (set_finalized true).

Definition listening (self : loc) : M world bool :=
  mid <- getattr self "_mid" _mid ;;
  invoke (_pymargo.is_listening mid).

Definition on_prefinalize (self : loc) (callable_obj : PyObject)
    : M world unit :=
  mid <- getattr self "_mid" _mid ;;
  invoke (_pymargo.push_prefinalize_callback mid callable_obj).

Definition on_finalize (self : loc) (callable_obj : PyObject)
    : M world unit :=
  mid <- getattr self "_mid" _mid ;;
  invoke (_pymargo.push_finalize_callback mid callable_obj).

Definition enable_remote_shutdown (self : loc) : M world unit :=
  mid <- getattr self "_mid" _mid ;;
  invoke (_pymargo.enable_remote_shutdown mid).

Definition register (self : loc) (rpc_name : string)
    (obj : option PyObject) (method_name : option string)
    (provider_id : Z) : M world hg_id_t :=
  match obj, method_name with
  | None, None =>
      mid <- getattr self "_mid" _mid ;;
      invoke (_pymargo.register_on_client mid rpc_name provider_id)
  | Some o, Some mn =>
      mid <- getattr self "_mid" _mid ;;
      invoke (_pymargo.register mid rpc_name provider_id o mn)
  | _, _ =>
      raise (RuntimeError
               "Both method name and object instance should be provided")
  end.

Definition registered (self : loc) (rpc_name : string)
    (provider_id : option Z) : M world (option hg_id_t) :=
  match provider_id with
  | None =>
      mid <- getattr self "_mid" _mid ;;
      invoke (_pymargo.registered mid rpc_name)
  | Some p =>
      mid <- getattr self "_mid" _mid ;;
      invoke (_pymargo.registered_provider mid rpc_name p)
  end.

Definition deregister (self : loc) (rpc_id : hg_id_t) : M world unit :=
  mid <- getattr self "_mid" _mid ;;
  invoke (_pymargo.deregister mid rpc_id).

Definition disable_response (self : loc) (rpc_id : hg_id_t)
    (disable : bool) : M world unit :=
  mid <- getattr self "_mid" _mid ;;
  invoke (_pymargo.disable_response mid rpc_id disable).

Definition disabled_response (self : loc) (rpc_id : hg_id_t)
    : M world bool :=
  mid <- getattr self "_mid" _mid ;;
  invoke (_pymargo.disabled_response mid rpc_id).

Definition lookup (self : loc) (straddr : string) : M world Address.t :=
  mid <- getattr self "_mid" _mid ;;
  hg_addr <- invoke (_pymargo.lookup mid straddr) ;;
  mid' <- getattr self "_mid" _mid ;;
  ret (Address.__init__ mid' hg_addr Address.need_del_default).

Definition addr (self : loc) : M world Address.t :=
  mid <- getattr self "_mid" _mid ;;
  hg_addr <- invoke (_pymargo.addr_self mid) ;;
  mid' <- getattr self "_mid" _mid ;;
  ret (Address.__init__ mid' hg_addr Address.need_del_default).

Definition address (self : loc) : M world Address.t := addr self.

Definition create_handle (self : loc) (a : Address.t) (rpc_id : hg_id_t)
    : M world Handle :=
  mid <- getattr self "_mid" _mid ;;
  invoke (_pymargo.create mid (Address._hg_addr a) rpc_id).

Definition create_bulk (self : loc) (array : bytearray)
    (access : bulk_access) : M world Bulk :=
  mid <- getattr self "_mid" _mid ;;
  blk <- invoke (_pymargo.bulk_create mid array access) ;;
  ret {| bulk_engine := self; _hg_bulk := blk |}.

Definition transfer (self : loc) (op : bulk_op) (origin_addr : Address.t)
    (origin_handle : Bulk) (origin_offset : Z) (local_handle : Bulk)
    (local_offset : Z) (size : Z) : M world unit :=
  mid <- getattr self "_mid" _mid ;;
  invoke (_pymargo.bulk_transfer mid op (Address._hg_addr origin_addr)
            (_hg_bulk origin_handle) origin_offset
            (_hg_bulk local_handle) local_offset size).

Definition get_internal_mid (self : loc) : M world margo_instance_id :=
  getattr self "_mid" _mid.

Definition mid (self : loc) : M world margo_instance_id :=
  getattr self "_mid" _mid.

Definition logger (self : loc) : M world EngineLogger :=
  getattr self "_logger" _logger.

Definition set_remove (self : loc) (a : Address.t) : M world unit :=
  mid <- getattr self "_mid" _mid ;;
  invoke (_pymargo.addr_set_remove mid (Address.hg_addr a)).

(** The expression [Engine(addr, mode, ...)]: a new object without
    attributes is allocated and [__init__] runs on it.  When [__init__]
    raises, the object is referenced by nothing: it is collected, which
    runs [__del__] (exceptions of a destructor are discarded), and the
    exception of [__init__] reaches the caller. *)
Definition new (addr : string) (m : mode) (use_progress_thread : bool)
    (num_rpc_threads : Z) (opts : options) : M world loc :=
  fun s =>
    let self := fresh (dom (engines s)) in
    let s0 := mkState (<[self := no_attributes]> (engines s))
                      (ext s) (calls s) in
    match __init__ self addr m use_progress_thread num_rpc_threads opts s0
    with
    | (inr _, s1) => (inr self, s1)
    | (inl e, s1) =>
        let (_, s2) := __del__ self s1 in
        (inl e, mkState (delete self (engines s2)) (ext s2) (calls s2))
    end.

(** Methods of [Engine.EngineLogger]. *)
Definition EngineLogger_trace (self : EngineLogger) (msg : string)
    : M world unit :=
  m <- mid (logger_engine self) ;; invoke (_pymargo.trace msg m).
Definition EngineLogger_debug (self : EngineLogger) (msg : string)
    : M world unit :=
  m <- mid (logger_engine self) ;; invoke (_pymargo.debug msg m).
Definition EngineLogger_info (self : EngineLogger) (msg : string)
    : M world unit :=
  m <- mid (logger_engine self) ;; invoke (_pymargo.info msg m).
Definition EngineLogger_warning (self : EngineLogger) (msg : string)
    : M world unit :=
  m <- mid (logger_engine self) ;; invoke (_pymargo.warning msg m).
Definition EngineLogger_error (self : EngineLogger) (msg : string)
    : M world unit :=
  m <- mid (logger_engine self) ;; invoke (_pymargo.error msg m).
Definition EngineLogger_critical (self : EngineLogger) (msg : string)
    : M world unit :=
  m <- mid (logger_engine self) ;; invoke (_pymargo.critical msg m).
Definition EngineLogger_set_logger (self : EngineLogger)
    (lg : PyObject) : M world unit :=
  invoke (_pymargo.set_logger (logger_engine self) lg).
Definition EngineLogger_set_log_level (self : EngineLogger)
    (lvl : logging.level) : M world unit :=
  m <- getattr (logger_engine self) "_mid" _mid ;;
  invoke (_pymargo.set_log_level m lvl).

End Methods.

End Engine.

(** ** class Provider *)

Module Provider.

(** The two attributes are assigned by [__init__] and by nothing else. *)
Record t := { _engine : loc; _provider_id : Z }.

Definition __init__ (engine : loc) (provider_id : Z) : t :=
  {| _engine := engine; _provider_id := provider_id |}.

(** The provider, as the object handed to the extension. *)
Definition as_object (self : t) : PyObject :=
  PyProvider (_engine self) (_provider_id self).

Section Methods.
Context {world : Type} `{Host world}.

Definition register (self : t) (rpc_name : string)
    (method_name : option string) : M world hg_id_t :=
  Engine.register (_engine self) rpc_name (Some (as_object self))
                  method_name (_provider_id self).

Definition registered (self : t) (rpc_name : string)
    : M world (option hg_id_t) :=
  Engine.registered (_engine self) rpc_name (Some (_provider_id self)).

Definition get_provider_id (self : t) : Z := _provider_id self.
Definition provider_id (self : t) : Z := _provider_id self.
Definition get_engine (self : t) : loc := _engine self.
Definition engine (self : t) : loc := _engine self.

End Methods.

End Provider.

(** ** A scripted extension

    The simplest implementation of [Host]: the extension has no state, a call
    raises [MargoException] when the script says so and returns a fixed value
    otherwise.  It plays the part of a test double for [_pymargo]. *)

Module Scripted.

Definition canned (c : _pymargo.call) : _pymargo.ret_ty c :=
  match c return _pymargo.ret_ty c with
  | _pymargo.init _ _ _ _ _ => 1%N
  | _pymargo.is_listening _ => true
  | _pymargo.disabled_response _ _ => false
  | _pymargo.addr_cmp _ a b => N.eqb a b
  | _pymargo.register_on_client _ _ _ => 7%N
  | _pymargo.register _ _ _ _ _ => 7%N
  | _pymargo.registered _ _ => None
  | _pymargo.registered_provider _ _ _ => None
  | _pymargo.lookup _ _ => 2%N
  | _pymargo.addr_self _ => 3%N
  | _pymargo.addr_dup _ a => N.succ a
  | _pymargo.Handle_get_hg_addr _ => 4%N
  | _pymargo.create _ _ _ => 5%N
  | _pymargo.bulk_create _ _ _ => 6%N
  | _pymargo.addr2str _ _ => "na+sm://1/0"
  | _pymargo.Handle_get_mid _ => 1%N
  | _ => tt
  end.

(** [json_dumps] is a stand-in for [json.dumps]: no property below depends
    on the text it produces. *)
Definition host (fails : _pymargo.call -> bool) : Host unit := {|
  ext_call c w :=
    if fails c then (inl (MargoException "scripted failure"), w)
    else (inr (canned c), w);
  json_dumps d :=
    String.concat "," (map (fun kv => (fst kv ++ ":" ++ snd kv)%string) d)
|}.

(** Every call succeeds. *)
Definition permissive : Host unit := host (fun _ => false).

Definition is_init (c : _pymargo.call) : bool :=
  match c with _pymargo.init _ _ _ _ _ => true | _ => false end.

Definition is_finalize (c : _pymargo.call) : bool :=
  match c with _pymargo.finalize _ => true | _ => false end.

Definition start : State unit := mkState ∅ tt [].

End Scripted.

(** ** A reference extension, modelled from the specification

    The sources of [_pymargo] (a compiled extension of the same repository)
    are not at hand.  The module below models it from the specification's
    data model and transport contract; it is used only for the properties
    that the extension, and not [core.py], decides. *)

Module Ref.

(** Modelled from the spec: the compiled extension's RPC identifier, "an
    internal integer/key uniquely naming a registered remote procedure
    within a (name, providerId) scope", "uniquely determined by (name,
    providerId)": an injective code of the pair. *)
Definition rpc_id (rpc_name : string) (provider_id : Z) : hg_id_t :=
  Npos (encode (rpc_name, provider_id)).

(** Modelled from the spec: the transport session owned by an Engine, which
    lives in the compiled extension: mode, own endpoint, [rpcRegistry]
    "mapping from (name, providerId) to an internal RPC identifier", the
    stored "(target, methodName, providerId)" tuples, the fire-and-forget
    flags, the two ordered callback lists and the remote-shutdown opt-in. *)
Record session := mkSession {
  s_mode : mode;
  s_self : string;
  s_registry : gmap (string * Z) hg_id_t;
  s_handlers : gmap hg_id_t (PyObject * string * Z);
  s_no_response : gset hg_id_t;
  s_prefinalize : list PyObject;
  s_finalize : list PyObject;
  s_remote_shutdown : bool
}.

(** Modelled from the spec: the state of the compiled extension and of the
    transport behind it: which address specifications can be bound and
    which endpoints resolve, the live sessions, the live endpoint
    references with the endpoint each one denotes, the RPC handles with
    their session, address and RPC id, the registered memory regions with
    their extent and access mode, the callbacks run so far, the log
    threshold and the messages logged. *)
Record world := mkWorld {
  bindable : gset string;
  reachable : gset string;
  sessions : gmap margo_instance_id session;
  endpoints : gmap hg_addr_t string;
  handles : gmap Handle (margo_instance_id * hg_addr_t * hg_id_t);
  regions : gmap hg_bulk_t (Z * bulk_access);
  fired : list PyObject;
  threshold : logging.level;
  log : list (logging.level * string)
}.

Definition with_sessions (f : gmap margo_instance_id session ->
                              gmap margo_instance_id session) (w : world) :=
  mkWorld (bindable w) (reachable w) (f (sessions w)) (endpoints w)
          (handles w) (regions w) (fired w) (threshold w) (log w).
Definition with_endpoints (f : gmap hg_addr_t string ->
                               gmap hg_addr_t string) (w : world) :=
  mkWorld (bindable w) (reachable w) (sessions w) (f (endpoints w))
          (handles w) (regions w) (fired w) (threshold w) (log w).
Definition with_handles
    (f : gmap Handle (margo_instance_id * hg_addr_t * hg_id_t) ->
         gmap Handle (margo_instance_id * hg_addr_t * hg_id_t))
    (w : world) :=
  mkWorld (bindable w) (reachable w) (sessions w) (endpoints w)
          (f (handles w)) (regions w) (fired w) (threshold w) (log w).
Definition with_regions (f : gmap hg_bulk_t (Z * bulk_access) ->
                             gmap hg_bulk_t (Z * bulk_access)) (w : world) :=
  mkWorld (bindable w) (reachable w) (sessions w) (endpoints w)
          (handles w) (f (regions w)) (fired w) (threshold w) (log w).
Definition with_fired (f : list PyObject -> list PyObject) (w : world) :=
  mkWorld (bindable w) (reachable w) (sessions w) (endpoints w)
          (handles w) (regions w) (f (fired w)) (threshold w) (log w).
Definition with_threshold (l : logging.level) (w : world) :=
  mkWorld (bindable w) (reachable w) (sessions w) (endpoints w)
          (handles w) (regions w) (fired w) l (log w).
Definition with_log (f : list (logging.level * string) ->
                         list (logging.level * string)) (w : world) :=
  mkWorld (bindable w) (reachable w) (sessions w) (endpoints w)
          (handles w) (regions w) (fired w) (threshold w) (f (log w)).

Definition set_registry (r : gmap (string * Z) hg_id_t)
    (h : gmap hg_id_t (PyObject * string * Z)) (ss : session) : session :=
  mkSession (s_mode ss) (s_self ss) r h (s_no_response ss)
            (s_prefinalize ss) (s_finalize ss) (s_remote_shutdown ss).
Definition set_no_response (n : gset hg_id_t) (ss : session) : session :=
  mkSession (s_mode ss) (s_self ss) (s_registry ss) (s_handlers ss) n
            (s_prefinalize ss) (s_finalize ss) (s_remote_shutdown ss).
Definition set_callbacks (p f : list PyObject) (ss : session) : session :=
  mkSession (s_mode ss) (s_self ss) (s_registry ss) (s_handlers ss)
            (s_no_response ss) p f (s_remote_shutdown ss).
Definition set_remote_shutdown (b : bool) (ss : session) : session :=
  mkSession (s_mode ss) (s_self ss) (s_registry ss) (s_handlers ss)
            (s_no_response ss) (s_prefinalize ss) (s_finalize ss) b.

Definition R (A : Type) : Type := world -> (exn + A) * world.

Definition ok {A} (a : A) : R A := fun w => (inr a, w).
Definition fail {A} (msg : string) : R A :=
  fun w => (inl (MargoException msg), w).

(** Modelled from the spec: the extension's check of its session argument;
    a session is "created by init, destroyed by finalize", and one that is
    not live is refused. *)
Definition in_session {A} (mid : margo_instance_id) (k : session -> R A)
    : R A :=
  fun w =>
    match sessions w !! mid with
    | Some ss => k ss w
    | None => fail "not a live margo instance" w
    end.

Definition update_session (mid : margo_instance_id)
    (f : session -> session) : R unit :=
  fun w => (inr tt, with_sessions (alter f mid) w).

(** Modelled from the spec: [_pymargo.init], "establishes a transport
    session", failing "if the transport cannot bind/connect to
    addressSpec". *)
Definition init (addr : string) (m : mode) : R margo_instance_id :=
  fun w =>
    if decide (addr ∈ bindable w) then
      let mid := fresh (dom (sessions w)) in
      (inr mid,
       with_sessions
         (insert mid (mkSession m addr ∅ ∅ ∅ [] [] false)) w)
    else fail "could not initialize margo" w.

(** Modelled from the spec: [_pymargo.finalize], which "runs all registered
    prefinalize callbacks in order, ..., runs all finalize callbacks in
    order, releases the session". *)
Definition finalize (mid : margo_instance_id) : R unit :=
  in_session mid (fun ss w =>
    (inr tt,
     with_sessions (delete mid)
       (with_fired
          (fun l => (l ++ s_prefinalize ss ++ s_finalize ss)%list) w))).

(** Modelled from the spec: [_pymargo.wait_for_finalize], which "blocks the
    calling thread until another actor ... finalizes the engine": when the
    call returns, the session has gone through the finalization above. *)
Definition wait_for_finalize (mid : margo_instance_id) : R unit :=
  finalize mid.

(** Modelled from the spec: [_pymargo.is_listening], "true only if
    constructed in server mode". *)
Definition is_listening (mid : margo_instance_id) : R bool :=
  in_session mid (fun ss =>
    ok (match s_mode ss with server => true | client => false end)).

(** Modelled from the spec: [_pymargo.push_prefinalize_callback] and
    [_pymargo.push_finalize_callback], which "append to the respective
    ordered callback list". *)
Definition push_prefinalize_callback (mid : margo_instance_id)
    (cb : PyObject) : R unit :=
  in_session mid (fun ss =>
    update_session mid
      (set_callbacks (s_prefinalize ss ++ [cb])%list (s_finalize ss))).
Definition push_finalize_callback (mid : margo_instance_id)
    (cb : PyObject) : R unit :=
  in_session mid (fun ss =>
    update_session mid
      (set_callbacks (s_prefinalize ss) (s_finalize ss ++ [cb])%list)).

(** Modelled from the spec: [_pymargo.enable_remote_shutdown], which "opts
    this engine in to honor a remote shutdown request". *)
Definition enable_remote_shutdown (mid : margo_instance_id) : R unit :=
  in_session mid (fun _ => update_session mid (set_remote_shutdown true)).

(** Modelled from the spec: [_pymargo.register_on_client], which "registers
    a client-side-only RPC id (no local handler)". *)
Definition register_on_client (mid : margo_instance_id)
    (rpc_name : string) (provider_id : Z) : R hg_id_t :=
  in_session mid (fun ss w =>
    let id := rpc_id rpc_name provider_id in
    (inr id,
     with_sessions
       (alter (set_registry
                 (<[(rpc_name, provider_id) := id]> (s_registry ss))
                 (s_handlers ss)) mid) w)).

(** Modelled from the spec: [_pymargo.register], which "registers a
    server-side handler bound to that (target, method) under
    providerId". *)
Definition register (mid : margo_instance_id) (rpc_name : string)
    (provider_id : Z) (obj : PyObject) (method_name : string)
    : R hg_id_t :=
  in_session mid (fun ss w =>
    let id := rpc_id rpc_name provider_id in
    (inr id,
     with_sessions
       (alter (set_registry
                 (<[(rpc_name, provider_id) := id]> (s_registry ss))
                 (<[id := (obj, method_name, provider_id)]>
                    (s_handlers ss))) mid) w)).

(** Modelled from the spec: [_pymargo.registered_provider], "lookup without
    registering" which "resolves within that namespace". *)
Definition registered_provider (mid : margo_instance_id)
    (rpc_name : string) (provider_id : Z) : R (option hg_id_t) :=
  in_session mid (fun ss => ok (s_registry ss !! (rpc_name, provider_id))).

(** Modelled from the spec: [_pymargo.registered]; "providerId 0 is the
    default/unscoped namespace". *)
Definition registered (mid : margo_instance_id) (rpc_name : string)
    : R (option hg_id_t) :=
  registered_provider mid rpc_name 0.

(** Modelled from the spec: [_pymargo.deregister], which "removes a prior
    registration". *)
Definition deregister (mid : margo_instance_id) (rpc_id : hg_id_t)
    : R unit :=
  in_session mid (fun ss =>
    update_session mid
      (set_registry
         (filter (fun kv : (string * Z) * hg_id_t => kv.2 ≠ rpc_id)
                 (s_registry ss))
         (delete rpc_id (s_handlers ss)))).

(** Modelled from the spec: [_pymargo.disable_response] and
    [_pymargo.disabled_response], which toggle and read "whether this RPC
    is fire-and-forget". *)
Definition disable_response (mid : margo_instance_id) (rpc_id : hg_id_t)
    (disable : bool) : R unit :=
  in_session mid (fun ss =>
    update_session mid
      (set_no_response
         (if disable then s_no_response ss ∪ {[rpc_id]}
          else s_no_response ss ∖ {[rpc_id]}))).
Definition disabled_response (mid : margo_instance_id) (rpc_id : hg_id_t)
    : R bool :=
  in_session mid (fun ss => ok (bool_decide (rpc_id ∈ s_no_response ss))).

(** Modelled from the spec: [_pymargo.lookup], which "resolves a textual
    endpoint descriptor to an owned Address" and fails "if malformed or
    unreachable at resolution time": a new endpoint reference. *)
Definition lookup (mid : margo_instance_id) (straddr : string)
    : R hg_addr_t :=
  in_session mid (fun _ w =>
    if decide (straddr ∈ reachable w) then
      let a := fresh (dom (endpoints w)) in
      (inr a, with_endpoints (insert a straddr) w)
    else fail "address lookup failed" w).

(** Modelled from the spec: [_pymargo.addr_self], "this engine's own
    listening/self address (owned)". *)
Definition addr_self (mid : margo_instance_id) : R hg_addr_t :=
  in_session mid (fun ss w =>
    let a := fresh (dom (endpoints w)) in
    (inr a, with_endpoints (insert a (s_self ss)) w)).

(** Modelled from the spec: [_pymargo.addr_dup]: "copy produces a new,
    independently-owned Address referencing the same endpoint". *)
Definition addr_dup (mid : margo_instance_id) (addr : hg_addr_t)
    : R hg_addr_t :=
  in_session mid (fun _ w =>
    match endpoints w !! addr with
    | Some e =>
        let a := fresh (dom (endpoints w)) in
        (inr a, with_endpoints (insert a e) w)
    | None => fail "invalid address" w
    end).

(** Modelled from the spec: [_pymargo.addr_free], the release of an
    endpoint reference. *)
Definition addr_free (mid : margo_instance_id) (addr : hg_addr_t)
    : R unit :=
  in_session mid (fun _ w =>
    match endpoints w !! addr with
    | Some _ => (inr tt, with_endpoints (delete addr) w)
    | None => fail "invalid address" w
    end).

(** Modelled from the spec: [_pymargo.addr_cmp]: "equality is structural
    equivalence of the underlying endpoint, not pointer identity". *)
Definition addr_cmp (mid : margo_instance_id) (a b : hg_addr_t) : R bool :=
  in_session mid (fun _ w =>
    match endpoints w !! a, endpoints w !! b with
    | Some ea, Some eb => (inr (bool_decide (ea = eb)), w)
    | _, _ => fail "invalid address" w
    end).

(** Modelled from the spec: [_pymargo.addr2str], the textual form of an
    endpoint. *)
Definition addr2str (mid : margo_instance_id) (addr : hg_addr_t)
    : R string :=
  in_session mid (fun _ w =>
    match endpoints w !! addr with
    | Some e => (inr e, w)
    | None => fail "invalid address" w
    end).

(** Modelled from the spec: [_pymargo.shutdown_remote_instance], which
    "sends a remote shutdown request to this address"; what the peer does
    with it happens outside this state. *)
Definition shutdown_remote_instance (mid : margo_instance_id)
    (addr : hg_addr_t) : R unit :=
  in_session mid (fun _ w =>
    match endpoints w !! addr with
    | Some _ => (inr tt, w)
    | None => fail "invalid address" w
    end).

(** Modelled from the spec: [_pymargo.addr_set_remove], "best-effort, never
    fails the caller". *)
Definition addr_set_remove (mid : margo_instance_id) (addr : hg_addr_t)
    : R unit := ok tt.

(** Modelled from the spec: [_pymargo.create], which "binds a reusable
    client-side call handle" to a (destination, RPC id) pair. *)
Definition create (mid : margo_instance_id) (addr : hg_addr_t)
    (rpc_id : hg_id_t) : R Handle :=
  in_session mid (fun _ w =>
    match endpoints w !! addr with
    | Some _ =>
        let h := fresh (dom (handles w)) in
        (inr h, with_handles (insert h (mid, addr, rpc_id)) w)
    | None => fail "invalid address" w
    end).

(** Modelled from the spec: [Handle._get_mid] and [Handle._get_hg_addr] of
    the extension's class [Handle]; for an inbound handle the address is
    the sender's, borrowed from the handle. *)
Definition Handle_get_mid (h : Handle) : R margo_instance_id :=
  fun w =>
    match handles w !! h with
    | Some (mid, _, _) => (inr mid, w)
    | None => fail "invalid handle" w
    end.
Definition Handle_get_hg_addr (h : Handle) : R hg_addr_t :=
  fun w =>
    match handles w !! h with
    | Some (_, a, _) => (inr a, w)
    | None => fail "invalid handle" w
    end.

(** Modelled from the spec: [_pymargo.bulk_create], which registers a
    buffer "for remote access under mode"; only the extent and the mode of
    the region are kept. *)
Definition bulk_create (mid : margo_instance_id) (array : bytearray)
    (access : bulk_access) : R hg_bulk_t :=
  in_session mid (fun _ w =>
    let b := fresh (dom (regions w)) in
    (inr b,
     with_regions (insert b (Z.of_nat (length array), access)) w)).

Definition readable (a : bulk_access) : bool :=
  match a with write_only => false | _ => true end.
Definition writable (a : bulk_access) : bool :=
  match a with read_only => false | _ => true end.

(** Modelled from the spec: the checks of [_pymargo.bulk_transfer], which
    fails "if offset + size exceeds either region's registered extent" and
    "if the operation is incompatible with either region's declared access
    mode"; the bytes moved are not modelled. *)
Definition bulk_transfer (mid : margo_instance_id) (op : bulk_op)
    (origin_addr : hg_addr_t) (origin_handle : hg_bulk_t)
    (origin_offset : Z) (local_handle : hg_bulk_t) (local_offset : Z)
    (size : Z) : R unit :=
  in_session mid (fun _ w =>
    match regions w !! origin_handle, regions w !! local_handle with
    | Some (osz, oacc), Some (lsz, lacc) =>
        if negb ((origin_offset + size <=? osz)
                 && (local_offset + size <=? lsz))
        then fail "out of bounds" w
        else if match op with
                | push => readable lacc && writable oacc
                | pull => readable oacc && writable lacc
                end
        then (inr tt, w)
        else fail "access mode" w
    | _, _ => fail "invalid bulk handle" w
    end).

Definition rank (l : logging.level) : nat :=
  match l with
  | logging.trace => 0 | logging.debug => 1 | logging.info => 2
  | logging.warning => 3 | logging.error => 4 | logging.critical => 5
  end%nat.

(** Modelled from the spec: the six logging functions of the extension: "a
    message below the configured threshold is dropped without side
    effects". *)
Definition emit (l : logging.level) (msg : string) : R unit :=
  fun w =>
    if (rank (threshold w) <=? rank l)%nat
    then (inr tt, with_log (fun ms => (ms ++ [(l, msg)])%list) w)
    else (inr tt, w).

(** Modelled from the spec: [_pymargo.set_log_level]. *)
Definition set_log_level (mid : margo_instance_id) (l : logging.level)
    : R unit :=
  fun w => (inr tt, with_threshold l w).

(** Modelled from the spec: the compiled extension [_pymargo] as a whole:
    each function of the interface is answered by its model above. *)
Definition call (c : _pymargo.call)
    : world -> (exn + _pymargo.ret_ty c) * world :=
  match c return world -> (exn + _pymargo.ret_ty c) * world with
  | _pymargo.init addr m _ _ _ => init addr m
  | _pymargo.finalize mid => finalize mid
  | _pymargo.wait_for_finalize mid => wait_for_finalize mid
  | _pymargo.is_listening mid => is_listening mid
  | _pymargo.push_prefinalize_callback mid cb =>
      push_prefinalize_callback mid cb
  | _pymargo.push_finalize_callback mid cb => push_finalize_callback mid cb
  | _pymargo.enable_remote_shutdown mid => enable_remote_shutdown mid
  | _pymargo.register_on_client mid n p => register_on_client mid n p
  | _pymargo.register mid n p o m => register mid n p o m
  | _pymargo.registered mid n => registered mid n
  | _pymargo.registered_provider mid n p => registered_provider mid n p
  | _pymargo.deregister mid id => deregister mid id
  | _pymargo.disable_response mid id d => disable_response mid id d
  | _pymargo.disabled_response mid id => disabled_response mid id
  | _pymargo.lookup mid s => lookup mid s
  | _pymargo.addr_self mid => addr_self mid
  | _pymargo.create mid a id => create mid a id
  | _pymargo.bulk_create mid arr acc => bulk_create mid arr acc
  | _pymargo.bulk_transfer mid op oa oh oo lh lo sz =>
      bulk_transfer mid op oa oh oo lh lo sz
  | _pymargo.addr_set_remove mid a => addr_set_remove mid a
  | _pymargo.addr_free mid a => addr_free mid a
  | _pymargo.addr2str mid a => addr2str mid a
  | _pymargo.addr_cmp mid a b => addr_cmp mid a b
  | _pymargo.addr_dup mid a => addr_dup mid a
  | _pymargo.shutdown_remote_instance mid a => shutdown_remote_instance mid a
  | _pymargo.trace msg _ => emit logging.trace msg
  | _pymargo.debug msg _ => emit logging.debug msg
  | _pymargo.info msg _ => emit logging.info msg
  | _pymargo.warning msg _ => emit logging.warning msg
  | _pymargo.error msg _ => emit logging.error msg
  | _pymargo.critical msg _ => emit logging.critical msg
  | _pymargo.set_logger _ _ => ok tt
  | _pymargo.set_log_level mid l => set_log_level mid l
  | _pymargo.Handle_get_mid h => Handle_get_mid h
  | _pymargo.Handle_get_hg_addr h => Handle_get_hg_addr h
  end.

#[global] Instance host : Host world := {|
  ext_call := call;
  json_dumps d :=
    String.concat "," (map (fun kv => (fst kv ++ ":" ++ snd kv)%string) d)
|}.

(** A world with nothing live in it, where [specs] can be bound and [peers]
    resolve. *)
Definition empty_world (specs peers : gset string) : world :=
  mkWorld specs peers ∅ ∅ ∅ ∅ [] logging.trace [].

Definition start (specs peers : gset string) : State world :=
  mkState ∅ (empty_world specs peers) [].

End Ref.

(** ** The operations of an Engine, as data

    [method] lists the methods and properties of [Engine] that can be used on
    a constructed instance; [perform] runs one and drops its result. *)

Inductive method :=
| m_finalize
| m_wait_for_finalize
| m_del
| m_enter
| m_exit
| m_listening
| m_on_prefinalize (callable_obj : PyObject)
| m_on_finalize (callable_obj : PyObject)
| m_enable_remote_shutdown
| m_register (rpc_name : string) (obj : option PyObject)
             (method_name : option string) (provider_id : Z)
| m_registered (rpc_name : string) (provider_id : option Z)
| m_deregister (rpc_id : hg_id_t)
| m_disable_response (rpc_id : hg_id_t) (disable : bool)
| m_disabled_response (rpc_id : hg_id_t)
| m_lookup (straddr : string)
| m_addr
| m_address
| m_create_handle (a : Address.t) (rpc_id : hg_id_t)
| m_create_bulk (array : bytearray) (access : bulk_access)
| m_transfer (op : bulk_op) (origin_addr : Address.t) (origin_handle : Bulk)
             (origin_offset : Z) (local_handle : Bulk) (local_offset : Z)
             (size : Z)
| m_get_internal_mid
| m_mid
| m_logger
| m_set_remove (a : Address.t).

(** What a program does between two states. *)
Inductive action :=
| Construct (addr : string) (m : mode) (use_progress_thread : bool)
            (num_rpc_threads : Z) (opts : options)
| Invoke (self : loc) (meth : method).

Section Operations.
Context {world : Type} `{Host world}.

Definition void {A} (m : M world A) : M world unit := _ <- m ;; ret tt.

Definition perform (self : loc) (meth : method) : M world unit :=
  match meth with
  | m_finalize => Engine.finalize self
  | m_wait_for_finalize => Engine.wait_for_finalize self
  | m_del => Engine.__del__ self
  | m_enter => void (Engine.__enter__ self)
  | m_exit => Engine.__exit__ self
  | m_listening => void (Engine.listening self)
  | m_on_prefinalize cb => Engine.on_prefinalize self cb
  | m_on_finalize cb => Engine.on_finalize self cb
  | m_enable_remote_shutdown => Engine.enable_remote_shutdown self
  | m_register n o mn p => void (Engine.register self n o mn p)
  | m_registered n p => void (Engine.registered self n p)
  | m_deregister id => Engine.deregister self id
  | m_disable_response id d => Engine.disable_response self id d
  | m_disabled_response id => void (Engine.disabled_response self id)
  | m_lookup sa => void (Engine.lookup self sa)
  | m_addr => void (Engine.addr self)
  | m_address => void (Engine.address self)
  | m_create_handle a id => void (Engine.create_handle self a id)
  | m_create_bulk arr acc => void (Engine.create_bulk self arr acc)
  | m_transfer op oa oh oo lh lo sz =>
      Engine.transfer self op oa oh oo lh lo sz
  | m_get_internal_mid => void (Engine.get_internal_mid self)
  | m_mid => void (Engine.mid self)
  | m_logger => void (Engine.logger self)
  | m_set_remove a => Engine.set_remove self a
  end.

Definition run (a : action) : M world unit :=
  match a with
  | Construct addr m upt nrt opts => void (Engine.new addr m upt nrt opts)
  | Invoke self meth => perform self meth
  end.

(** The state after an action, whether it returned or raised, and after a
    sequence of actions (a caller may catch an exception and go on). *)
Definition step (a : action) (s : State world) : State world := (run a s).2.

Definition steps (l : list action) (s : State world) : State world :=
  fold_left (fun s a => step a s) l s.

(** The calls that [m] makes to the extension when run from [s]. *)
Definition issued {A} (m : M world A) (s : State world)
    : list _pymargo.call :=
  drop (length (calls s)) (calls (m s).2).

End Operations.

(** The flag of the engine at [self], when it has one. *)
Definition flag {world} (s : State world) (self : loc) : option bool :=
  engines s !! self ≫= _finalized.

(** The session handle of the engine at [self], when it has one. *)
Definition session_of {world} (s : State world) (self : loc)
    : option margo_instance_id :=
  engines s !! self ≫= _mid.

(** The call that a method makes to the extension on an engine whose session
    handle is [mid]; [None] for the methods that make none.  The destructor
    and [__exit__] are left out: what they do depends on [_finalized]. *)
Definition request (mid : margo_instance_id) (meth : method)
    : option _pymargo.call :=
  match meth with
  | m_finalize => Some (_pymargo.finalize mid)
  | m_wait_for_finalize => Some (_pymargo.wait_for_finalize mid)
  | m_listening => Some (_pymargo.is_listening mid)
  | m_on_prefinalize cb => Some (_pymargo.push_prefinalize_callback mid cb)
  | m_on_finalize cb => Some (_pymargo.push_finalize_callback mid cb)
  | m_enable_remote_shutdown => Some (_pymargo.enable_remote_shutdown mid)
  | m_register n None None p => Some (_pymargo.register_on_client mid n p)
  | m_register n (Some o) (Some mn) p => Some (_pymargo.register mid n p o mn)
  | m_registered n None => Some (_pymargo.registered mid n)
  | m_registered n (Some p) => Some (_pymargo.registered_provider mid n p)
  | m_deregister id => Some (_pymargo.deregister mid id)
  | m_disable_response id d => Some (_pymargo.disable_response mid id d)
  | m_disabled_response id => Some (_pymargo.disabled_response mid id)
  | m_lookup sa => Some (_pymargo.lookup mid sa)
  | m_addr | m_address => Some (_pymargo.addr_self mid)
  | m_create_handle a id =>
      Some (_pymargo.create mid (Address._hg_addr a) id)
  | m_create_bulk arr acc => Some (_pymargo.bulk_create mid arr acc)
  | m_transfer op oa oh oo lh lo sz =>
      Some (_pymargo.bulk_transfer mid op (Address._hg_addr oa) (_hg_bulk oh)
                                   oo (_hg_bulk lh) lo sz)
  | m_set_remove a => Some (_pymargo.addr_set_remove mid (Address._hg_addr a))
  | _ => None
  end.

Definition consults_flag (meth : method) : bool :=
  match meth with m_del | m_exit => true | _ => false end.

Definition sets_flag (meth : method) : bool :=
  match meth with
  | m_finalize | m_wait_for_finalize | m_del | m_exit => true
  | _ => false
  end.

(** The call that [Engine.__init__] makes: a dictionary of options is
    serialized first. *)
Definition init_request {world : Type} `{Host world} (addr : string)
    (m : mode) (use_progress_thread : bool) (num_rpc_threads : Z)
    (opts : options) : _pymargo.call :=
  _pymargo.init addr m use_progress_thread num_rpc_threads
    (match opts with OptDict d => json_dumps d | OptStr o => o end).

(** The attributes of an engine whose [__init__] has returned. *)
Definition constructed (self : loc) (mid : margo_instance_id) : EngineObj :=
  {| _finalized := Some false;
     _mid := Some mid;
     _logger := Some {| logger_engine := self |} |}.

(** The attributes of an engine whose [__init__] was interrupted by the
    failure of [_pymargo.init]. *)
Definition interrupted : EngineObj :=
  {| _finalized := Some true; _mid := None; _logger := None |}.

(** A computation that assigns no attribute of any engine. *)
Definition keeps {world : Type} {A} (m : M world A) : Prop :=
  forall s, engines (m s).2 = engines s.

(** In the reference extension: the address [a] belongs to a live session and
    its handle is a live reference to the endpoint [e]. *)
Definition denotes (s : State Ref.world) (a : Address.t) (e : string)
    : Prop :=
  is_Some (Ref.sessions (ext s) !! Address._mid a) /\
  Ref.endpoints (ext s) !! Address._hg_addr a = Some e.

(** In the reference extension: the end of a handler invocation, when the
    transport takes back the sender address [b] that it lent. *)
Definition handler_returns (b : hg_addr_t) (s : State Ref.world)
    : State Ref.world :=
  mkState (engines s) (Ref.with_endpoints (delete b) (ext s)) (calls s).

(** No call in [l] releases an address. *)
Definition frees_nothing (l : list _pymargo.call) : Prop :=
  forall mid a, ~ In (_pymargo.addr_free mid a) l.

(** ** Example runs

    A server engine built on an extension that accepts every call, on one
    whose [finalize] fails, and on the reference extension with one peer. *)

Module Run.

Definition failing_finalize : Host unit :=
  Scripted.host Scripted.is_finalize.

Definition failing_init : Host unit := Scripted.host Scripted.is_init.

(** [e = Engine("na+sm")], on an extension that accepts every call. *)
Definition live : State unit :=
  (Engine.new (H := Scripted.permissive) "na+sm" server false 0
              (OptStr "") Scripted.start).2.

(** [e.finalize()] after that. *)
Definition finalized : State unit :=
  (Engine.finalize (H := Scripted.permissive) 0%N live).2.

Definition peer : string := "na+sm://peer".

(** [e = Engine("na+sm")] on the reference extension. *)
Definition ref_live : State Ref.world :=
  (Engine.new "na+sm" server false 0 (OptStr "")
              (Ref.start {["na+sm"]} {[peer]})).2.

(** [a = e.lookup(peer)] after that. *)
Definition ref_looked_up : State Ref.world :=
  (Engine.lookup 0%N peer ref_live).2.

(** [h = e.create_handle(a, 9)] after that. *)
Definition ref_with_handle : State Ref.world :=
  (Engine.create_handle 0%N (Address.__init__ 0%N 0%N true) 9%N
                        ref_looked_up).2.

(** [e.register("echo", obj, "echo", 8)] on the live engine. *)
Definition ref_registered_8 : State Ref.world :=
  (Engine.register 0%N "echo" (Some (PyOther "service")) (Some "echo") 8
                   ref_live).2.

(** [f = Engine("na+sm", client)] next to the live engine [e]. *)
Definition ref_two : State Ref.world :=
  (Engine.new "na+sm" client false 0 (OptStr "") ref_live).2.

End Run.

(** ** Further notions used to state properties of the code *)

(** The session that a call is made on, for the functions of the extension
    that take one. *)
Definition call_session (c : _pymargo.call) : option margo_instance_id :=
  match c with
  | _pymargo.init _ _ _ _ _ => None
  | _pymargo.set_logger _ _ => None
  | _pymargo.Handle_get_mid _ => None
  | _pymargo.Handle_get_hg_addr _ => None
  | _pymargo.finalize mid => Some mid
  | _pymargo.wait_for_finalize mid => Some mid
  | _pymargo.is_listening mid => Some mid
  | _pymargo.push_prefinalize_callback mid _ => Some mid
  | _pymargo.push_finalize_callback mid _ => Some mid
  | _pymargo.enable_remote_shutdown mid => Some mid
  | _pymargo.register_on_client mid _ _ => Some mid
  | _pymargo.register mid _ _ _ _ => Some mid
  | _pymargo.registered mid _ => Some mid
  | _pymargo.registered_provider mid _ _ => Some mid
  | _pymargo.deregister mid _ => Some mid
  | _pymargo.disable_response mid _ _ => Some mid
  | _pymargo.disabled_response mid _ => Some mid
  | _pymargo.lookup mid _ => Some mid
  | _pymargo.addr_self mid => Some mid
  | _pymargo.create mid _ _ => Some mid
  | _pymargo.bulk_create mid _ _ => Some mid
  | _pymargo.bulk_transfer mid _ _ _ _ _ _ _ => Some mid
  | _pymargo.addr_set_remove mid _ => Some mid
  | _pymargo.addr_free mid _ => Some mid
  | _pymargo.addr2str mid _ => Some mid
  | _pymargo.addr_cmp mid _ _ => Some mid
  | _pymargo.addr_dup mid _ => Some mid
  | _pymargo.shutdown_remote_instance mid _ => Some mid
  | _pymargo.trace _ mid => Some mid
  | _pymargo.debug _ mid => Some mid
  | _pymargo.info _ mid => Some mid
  | _pymargo.warning _ mid => Some mid
  | _pymargo.error _ mid => Some mid
  | _pymargo.critical _ mid => Some mid
  | _pymargo.set_log_level mid _ => Some mid
  end.

(** The calls that a method makes on an engine that holds the session [mid]
    and whose [_finalized] attribute reads [f]. *)
Definition requests (mid : margo_instance_id) (f : option bool)
    (meth : method) : list _pymargo.call :=
  if consults_flag meth then
    match f with
    | Some false => [_pymargo.finalize mid]
    | _ => []
    end
  else
    match request mid meth with
    | Some c => [c]
    | None => []
    end.

(** An engine object on which [__init__] has run to its end: the three
    attributes are assigned, and the logger is the one of this engine. *)
Definition fully_built (self : loc) (o : EngineObj) : Prop :=
  is_Some (_finalized o) /\ is_Some (_mid o) /\
  _logger o = Some {| logger_engine := self |}.

(** Every engine of the heap is fully built. *)
Definition well_formed {world : Type} (s : State world) : Prop :=
  forall l o, engines s !! l = Some o -> fully_built l o.

(** The six logging methods of [Engine.EngineLogger], by level, and the
    function of the extension that each one calls. *)
Definition EngineLogger_log {world : Type} `{Host world}
    (lvl : logging.level) : EngineLogger -> string -> M world unit :=
  match lvl with
  | logging.trace => Engine.EngineLogger_trace
  | logging.debug => Engine.EngineLogger_debug
  | logging.info => Engine.EngineLogger_info
  | logging.warning => Engine.EngineLogger_warning
  | logging.error => Engine.EngineLogger_error
  | logging.critical => Engine.EngineLogger_critical
  end.

Definition level_call (lvl : logging.level) (msg : string)
    (mid : margo_instance_id) : _pymargo.call :=
  match lvl with
  | logging.trace => _pymargo.trace msg mid
  | logging.debug => _pymargo.debug msg mid
  | logging.info => _pymargo.info msg mid
  | logging.warning => _pymargo.warning msg mid
  | logging.error => _pymargo.error msg mid
  | logging.critical => _pymargo.critical msg mid
  end.

(** [e.logger.<level>(msg)]: the property is read, then the method of the
    logger is called. *)
Definition log_through_engine {world : Type} `{Host world} (self : loc)
    (lvl : logging.level) (msg : string) : M world unit :=
  lg <- Engine.logger self ;; EngineLogger_log lvl lg msg.

(** The outcome of a computation that drops the value returned. *)
Definition outcome {A} (r : exn + A) : exn + unit :=
  match r with inl e => inl e | inr _ => inr tt end.

(** The session [mid] is held by an engine of the heap. *)
Definition held {world : Type} (s : State world) (mid : margo_instance_id)
    : Prop :=
  exists l, session_of s l = Some mid.

(** The calls made since the log was [before]. *)
Definition since {world : Type} (before : list _pymargo.call)
    (s : State world) : list _pymargo.call :=
  drop (length before) (calls s).

(** * Properties *)

(** ** Reasoning about the monad *)

Section MonadFacts.
Context {world : Type} `{Host world}.

Lemma bind_ret_l {A B} (a : A) (k : A -> M world B) s :
  bind (ret a) k s = k a s.
Proof. reflexivity. Qed.

Lemma bind_raise {A B} (e : exn) (k : A -> M world B) s :
  bind (raise e) k s = (inl e, s).
Proof. reflexivity. Qed.

Lemma bind_getattr {A B} self name (attr : EngineObj -> option A)
    (k : A -> M world B) s :
  bind (getattr self name attr) k s =
  match engines s !! self ≫= attr with
  | Some v => k v s
  | None => (inl (AttributeError name), s)
  end.
Proof. unfold bind, getattr. by destruct (engines s !! self ≫= attr). Qed.

Lemma bind_invoke {B} c (k : _pymargo.ret_ty c -> M world B) s :
  bind (invoke c) k s =
  match ext_call c (ext s) with
  | (inr v, w) => k v (mkState (engines s) w (calls s ++ [c]))
  | (inl e, w) => (inl e, mkState (engines s) w (calls s ++ [c]))
  end.
Proof.
  unfold bind, invoke. by destruct (ext_call c (ext s)) as [[e|v] w].
Qed.

Lemma invoke_eq c s :
  invoke c s =
  ((ext_call c (ext s)).1,
   mkState (engines s) (ext_call c (ext s)).2 (calls s ++ [c])).
Proof. unfold invoke. by destruct (ext_call c (ext s)). Qed.

Lemma bind_setattr {B} self upd (k : unit -> M world B) s :
  bind (setattr self upd) k s =
  k tt (mkState (alter upd self (engines s)) (ext s) (calls s)).
Proof. reflexivity. Qed.

Lemma bind_bind {A B C} (m : M world A) (k1 : A -> M world B)
    (k2 : B -> M world C) s :
  bind (bind m k1) k2 s = bind m (fun a => bind (k1 a) k2) s.
Proof. unfold bind. by destruct (m s) as [[e|a] s']. Qed.

Lemma issued_app {A} (m : M world A) s l :
  calls (m s).2 = calls s ++ l -> issued m s = l.
Proof. unfold issued. intros ->. apply drop_app_length. Qed.

End MonadFacts.

Ltac py_simpl :=
  repeat first
    [ rewrite bind_bind
    | rewrite bind_getattr
    | rewrite bind_invoke
    | rewrite bind_setattr
    | rewrite bind_ret_l
    | rewrite bind_raise ].

(** ** Registration *)

Section Registration.
Context {world : Type} `{Host world}.

Lemma register_engines self rpc_name obj method_name provider_id
    (s : State world) :
  engines (Engine.register self rpc_name obj method_name provider_id s).2
  = engines s.
Proof.
  unfold Engine.register.
  destruct obj, method_name; py_simpl; try reflexivity;
    destruct (engines s !! self ≫= _mid); try reflexivity;
    rewrite invoke_eq; reflexivity.
Qed.

Lemma registered_engines self rpc_name provider_id (s : State world) :
  engines (Engine.registered self rpc_name provider_id s).2 = engines s.
Proof.
  unfold Engine.registered.
  destruct provider_id; py_simpl;
    destruct (engines s !! self ≫= _mid); try reflexivity;
    rewrite invoke_eq; reflexivity.
Qed.

End Registration.

(** C1.  [Engine.register] with exactly one of [obj] and [method_name] given
    raises the [RuntimeError] of the source (the specification's
    ConfigurationError) and leaves the whole state, extension included, as it
    was: no call is issued.  With neither, on an engine holding the session
    [mid], it is the call of [_pymargo.register_on_client] (client-side id,
    no handler); with both, it is the call of [_pymargo.register] with the
    object, the method name and [provider_id]. *)
Theorem register_dispatch {world : Type} `{Host world}
    (self : loc) (rpc_name : string) (provider_id : Z) (s : State world) :
  let ambiguous :=
    RuntimeError "Both method name and object instance should be provided" in
  (forall o,
      Engine.register self rpc_name (Some o) None provider_id s
      = (inl ambiguous, s)) /\
  (forall mn,
      Engine.register self rpc_name None (Some mn) provider_id s
      = (inl ambiguous, s)) /\
  (forall mid,
      session_of s self = Some mid ->
      Engine.register self rpc_name None None provider_id s
      = invoke (_pymargo.register_on_client mid rpc_name provider_id) s /\
      forall o mn,
        Engine.register self rpc_name (Some o) (Some mn) provider_id s
        = invoke (_pymargo.register mid rpc_name provider_id o mn) s).
Proof.
  cbn zeta. split; [reflexivity|]. split; [reflexivity|].
  intros mid Hmid. unfold session_of in Hmid.
  split; [|intros o mn]; unfold Engine.register;
    rewrite bind_getattr, Hmid; reflexivity.
Qed.

(** C7.  The destructor of an [Address] calls [_pymargo.addr_free] on its
    endpoint handle when [_need_del] is true and does nothing at all when it
    is false: the release is issued if and only if the flag is set. *)
Theorem address_del_releases_iff_need_del {world : Type} `{Host world}
    (a : Address.t) (s : State world) :
  let free := _pymargo.addr_free (Address._mid a) (Address._hg_addr a) in
  Address.__del__ a s
  = (if Address._need_del a then invoke free s else (inr tt, s)) /\
  issued (Address.__del__ a) s
  = (if Address._need_del a then [free] else []) /\
  (In free (issued (Address.__del__ a) s) <-> Address._need_del a = true).
Proof.
  cbn zeta.
  assert (Hi : issued (Address.__del__ a) s
               = if Address._need_del a
                 then [_pymargo.addr_free (Address._mid a)
                                          (Address._hg_addr a)]
                 else []).
  { apply issued_app. unfold Address.__del__.
    destruct (Address._need_del a).
    - rewrite invoke_eq. reflexivity.
    - cbn. by rewrite app_nil_r. }
  split; [unfold Address.__del__; by destruct (Address._need_del a)|].
  split; [exact Hi|].
  rewrite Hi. destruct (Address._need_del a); cbn; intuition congruence.
Qed.

(** C8.  A [Provider] built over engine [e] with id [i] delegates:
    [p.register(rpc_name, method_name)] is [e.register(rpc_name, p,
    method_name, i)] and [p.registered(rpc_name)] is [e.registered(rpc_name,
    i)], with the same result and the same effect on the state; neither call
    changes an attribute of any Python object, and the provider's engine and
    id read as they were given. *)
Theorem provider_delegates {world : Type} `{Host world}
    (e : loc) (i : Z) (rpc_name : string) (method_name : option string)
    (s : State world) :
  let p := Provider.__init__ e i in
  Provider.register p rpc_name method_name s
  = Engine.register e rpc_name (Some (Provider.as_object p)) method_name i s
  /\ Provider.registered p rpc_name s
     = Engine.registered e rpc_name (Some i) s
  /\ engines (Provider.register p rpc_name method_name s).2 = engines s
  /\ engines (Provider.registered p rpc_name s).2 = engines s
  /\ Provider.get_engine p = e /\ Provider.engine p = e
  /\ Provider.get_provider_id p = i /\ Provider.provider_id p = i.
Proof.
  cbn zeta. repeat split.
  - apply register_engines.
  - apply registered_engines.
Qed.

(** ** Construction *)

Section Construction.
Context {world : Type} `{Host world}.

Lemma init_run self addr m upt nrt opts (s : State world) :
  Engine.__init__ self addr m upt nrt opts s =
  match ext_call (init_request addr m upt nrt opts) (ext s) with
  | (inr mid, w) =>
      (inr tt,
       mkState
         (alter (set_logger_attr {| logger_engine := self |}) self
            (alter (set_finalized false) self
               (alter (set_mid mid) self
                  (alter (set_finalized true) self (engines s)))))
         w (calls s ++ [init_request addr m upt nrt opts]))
  | (inl e, w) =>
      (inl e,
       mkState (alter (set_finalized true) self (engines s)) w
               (calls s ++ [init_request addr m upt nrt opts]))
  end.
Proof.
  unfold Engine.__init__, init_request.
  rewrite bind_setattr. cbn zeta. rewrite bind_invoke. cbn [ext calls engines].
  destruct (ext_call _ (ext s)) as [[e|mid] w]; reflexivity.
Qed.

Lemma del_interrupted self (s : State world) :
  engines s !! self = Some interrupted ->
  Engine.__del__ self s = (inr tt, s).
Proof.
  intros Hs. unfold Engine.__del__. rewrite bind_getattr, Hs. reflexivity.
Qed.

Lemma fresh_engine (s : State world) :
  engines s !! fresh (dom (engines s)) = None.
Proof. apply not_elem_of_dom, is_fresh. Qed.

Lemma new_run addr m upt nrt opts (s : State world) :
  let c := init_request addr m upt nrt opts in
  let self := fresh (dom (engines s)) in
  Engine.new addr m upt nrt opts s =
  match ext_call c (ext s) with
  | (inr mid, w) =>
      (inr self,
       mkState (<[self := constructed self mid]> (engines s)) w
               (calls s ++ [c]))
  | (inl e, w) => (inl e, mkState (engines s) w (calls s ++ [c]))
  end.
Proof.
  cbn zeta. unfold Engine.new. rewrite init_run. cbn [ext calls engines].
  destruct (ext_call _ (ext s)) as [[e|mid] w].
  - rewrite alter_insert_eq.
    rewrite del_interrupted by (cbn; apply lookup_insert_eq).
    cbn [engines ext calls].
    rewrite delete_insert_id by apply fresh_engine. reflexivity.
  - rewrite !alter_insert_eq. reflexivity.
Qed.

End Construction.

(** C4.  Construction is atomic.  When [_pymargo.init] raises, the expression
    [Engine(...)] raises the same exception, the engines that exist are
    exactly those that existed before, and the only call issued is the failed
    [init]: the destructor of the half-built object, whose [_finalized] was
    set to [True] before [init] was tried, returns without calling
    [finalize].  When [_pymargo.init] returns a session, the expression
    returns a new engine holding that session, with [_finalized] false. *)
Theorem construction_atomic {world : Type} `{Host world}
    (addr : string) (m : mode) (use_progress_thread : bool)
    (num_rpc_threads : Z) (opts : options) (s : State world) :
  let c := init_request addr m use_progress_thread num_rpc_threads opts in
  let self := fresh (dom (engines s)) in
  let built := Engine.new addr m use_progress_thread num_rpc_threads opts s in
  let half := (Engine.__init__ self addr m use_progress_thread num_rpc_threads
                 opts
                 (mkState (<[self := no_attributes]> (engines s))
                          (ext s) (calls s))).2 in
  engines s !! self = None /\
  match ext_call c (ext s) with
  | (inl e, w) =>
      built = (inl e, mkState (engines s) w (calls s ++ [c])) /\
      issued (Engine.new addr m use_progress_thread num_rpc_threads opts) s
      = [c] /\
      engines half !! self = Some interrupted /\
      Engine.__del__ self half = (inr tt, half)
  | (inr mid, w) =>
      built = (inr self,
               mkState (<[self := constructed self mid]> (engines s)) w
                       (calls s ++ [c])) /\
      flag built.2 self = Some false /\
      session_of built.2 self = Some mid
  end.
Proof.
  cbn zeta. split; [apply fresh_engine|].
  pose proof (new_run addr m use_progress_thread num_rpc_threads opts s)
    as Hnew.
  pose proof (init_run (fresh (dom (engines s))) addr m use_progress_thread
                num_rpc_threads opts
                (mkState (<[fresh (dom (engines s)) := no_attributes]>
                            (engines s)) (ext s) (calls s))) as Hinit.
  cbn zeta in Hnew. cbn [ext calls engines] in Hinit.
  destruct (ext_call _ (ext s)) as [[e|mid] w].
  - split; [exact Hnew|]. split.
    { apply issued_app. rewrite Hnew. reflexivity. }
    rewrite Hinit. cbn [snd engines]. rewrite alter_insert_eq.
    assert (Hl : <[fresh (dom (engines s)) := set_finalized true no_attributes]>
                   (engines s) !! fresh (dom (engines s))
                 = Some interrupted) by apply lookup_insert_eq.
    split; [exact Hl|]. apply del_interrupted. exact Hl.
  - rewrite Hnew. split; [reflexivity|].
    unfold flag, session_of. cbn [snd engines].
    rewrite lookup_insert_eq. split; reflexivity.
Qed.

(** ** Finalization *)

Section Finalization.
Context {world : Type} `{Host world}.

Lemma finalize_run self mid (s : State world) :
  session_of s self = Some mid ->
  Engine.finalize self s =
  match ext_call (_pymargo.finalize mid) (ext s) with
  | (inr _, w) =>
      (inr tt,
       mkState (alter (set_finalized true) self (engines s)) w
               (calls s ++ [_pymargo.finalize mid]))
  | (inl e, w) =>
      (inl e, mkState (engines s) w (calls s ++ [_pymargo.finalize mid]))
  end.
Proof.
  unfold session_of. intros Hmid. unfold Engine.finalize.
  rewrite bind_getattr, Hmid, bind_invoke.
  destruct (ext_call _ (ext s)) as [[e|[]] w]; reflexivity.
Qed.

Lemma wait_for_finalize_run self mid (s : State world) :
  session_of s self = Some mid ->
  Engine.wait_for_finalize self s =
  match ext_call (_pymargo.wait_for_finalize mid) (ext s) with
  | (inr _, w) =>
      (inr tt,
       mkState (alter (set_finalized true) self (engines s)) w
               (calls s ++ [_pymargo.wait_for_finalize mid]))
  | (inl e, w) =>
      (inl e,
       mkState (engines s) w (calls s ++ [_pymargo.wait_for_finalize mid]))
  end.
Proof.
  unfold session_of. intros Hmid. unfold Engine.wait_for_finalize.
  rewrite bind_getattr, Hmid, bind_invoke.
  destruct (ext_call _ (ext s)) as [[e|[]] w]; reflexivity.
Qed.

Lemma del_not_finalized self (s : State world) :
  flag s self = Some false ->
  Engine.__del__ self s = Engine.finalize self s
  /\ Engine.__exit__ self s = Engine.finalize self s.
Proof.
  unfold flag. intros Hf. unfold Engine.__del__, Engine.__exit__.
  rewrite !bind_getattr, Hf. split; reflexivity.
Qed.

Lemma del_finalized self (s : State world) :
  flag s self = Some true ->
  Engine.__del__ self s = (inr tt, s) /\ Engine.__exit__ self s = (inr tt, s).
Proof.
  unfold flag. intros Hf. unfold Engine.__del__, Engine.__exit__.
  rewrite !bind_getattr, Hf. split; reflexivity.
Qed.

End Finalization.

(** C3 (as the code has it).  When [_pymargo.finalize] raises inside
    [Engine.finalize], the exception reaches the caller of [finalize]; the
    failed call is the only one issued, so no warning is logged; no attribute
    of the engine changes, so [_finalized] keeps its value, and an engine that
    was not finalized will have [finalize] called again by its destructor and
    by [__exit__]. *)
Theorem finalize_failure_propagates {world : Type} `{Host world}
    (self : loc) (mid : margo_instance_id) (e : exn) (w : world)
    (s : State world) :
  session_of s self = Some mid ->
  ext_call (_pymargo.finalize mid) (ext s) = (inl e, w) ->
  let s' := mkState (engines s) w (calls s ++ [_pymargo.finalize mid]) in
  Engine.finalize self s = (inl e, s') /\
  issued (Engine.finalize self) s = [_pymargo.finalize mid] /\
  flag s' self = flag s self /\
  (flag s self = Some false ->
   Engine.__del__ self s' = Engine.finalize self s' /\
   Engine.__exit__ self s' = Engine.finalize self s').
Proof.
  intros Hmid Hfail. cbn zeta.
  pose proof (finalize_run self mid s Hmid) as Hrun.
  rewrite Hfail in Hrun.
  split; [exact Hrun|]. split.
  { apply issued_app. rewrite Hrun. reflexivity. }
  split; [reflexivity|].
  intros Hf. apply del_not_finalized. exact Hf.
Qed.

(** ** Operations on an engine do not look at [_finalized] *)

Ltac forward_case Hmid :=
  cbn [perform request]; unfold void;
  unfold Engine.finalize, Engine.wait_for_finalize, Engine.listening,
    Engine.on_prefinalize, Engine.on_finalize, Engine.enable_remote_shutdown,
    Engine.register, Engine.registered, Engine.deregister,
    Engine.disable_response, Engine.disabled_response, Engine.lookup,
    Engine.address, Engine.addr, Engine.create_handle, Engine.create_bulk,
    Engine.transfer, Engine.set_remove, Engine.get_internal_mid, Engine.mid,
    Engine.logger, Engine.__enter__, Address.hg_addr;
  unfold bind, invoke, getattr, setattr, ret, raise;
  repeat first
    [ progress cbn [engines ext calls fst snd]
    | rewrite Hmid ].

(** C2 (as the code has it).  On an engine whose [_finalized] is true and
    which holds the session [mid], the destructor and [__exit__] return
    without doing anything, and they are the only operations that look at the
    flag: every other operation does what it does on a live engine.  It
    issues its call to the extension with the stored [mid], and it raises
    exactly when that call raises, with the extension's exception.  The
    operations that call nothing leave the extension untouched. *)
Theorem finalized_engine_forwards {world : Type} `{Host world}
    (self : loc) (mid : margo_instance_id) (meth : method)
    (s : State world) :
  flag s self = Some true ->
  session_of s self = Some mid ->
  if consults_flag meth then perform self meth s = (inr tt, s)
  else
    match request mid meth with
    | Some c =>
        issued (perform self meth) s = [c] /\
        (perform self meth s).1
        = match (ext_call c (ext s)).1 with
          | inl e => inl e
          | inr _ => inr tt
          end /\
        ext (perform self meth s).2 = (ext_call c (ext s)).2
    | None =>
        issued (perform self meth) s = [] /\
        ext (perform self meth s).2 = ext s
    end.
Proof.
  intros Hf Hmid. unfold session_of in Hmid.
  assert (Hnil : forall A (m : M world A), (m s).2 = s -> issued m s = [])
    by (intros A m Hm; apply issued_app; rewrite Hm; by rewrite app_nil_r).
  destruct meth as [ | | | | | | | | |n [o|] [mn|] p|n [p|]| | | | | | | | | | | | | ];
    cbn [consults_flag request];
    first
      [ (* the destructor and __exit__ *)
        apply (del_finalized self s Hf)
      | (* operations without a call *)
        split; [apply Hnil|];
        forward_case Hmid;
        try (destruct (engines s !! self ≫= _logger));
        reflexivity
      | (* operations with a call *)
        split; [apply issued_app|];
        forward_case Hmid;
        destruct (ext_call _ (ext s)) as [[e|v] w];
        forward_case Hmid;
        try split;
        first [ reflexivity | cbn in v; destruct v; reflexivity ] ].
Qed.

(** ** The [_finalized] flag along a run *)

Section Flag.
Context {world : Type} `{Host world}.

Lemma keeps_ret {A} (a : A) : keeps (world := world) (ret a).
Proof. intros s. reflexivity. Qed.

Lemma keeps_raise {A} (e : exn) :
  keeps (world := world) (raise (A := A) e).
Proof. intros s. reflexivity. Qed.

Lemma keeps_invoke c : keeps (invoke c).
Proof. intros s. rewrite invoke_eq. reflexivity. Qed.

Lemma keeps_getattr {A} self name (attr : EngineObj -> option A) :
  keeps (world := world) (getattr self name attr).
Proof.
  intros s. unfold getattr. by destruct (engines s !! self ≫= attr).
Qed.

Lemma keeps_bind {A B} (m : M world A) (k : A -> M world B) :
  keeps m -> (forall a, keeps (k a)) -> keeps (bind m k).
Proof.
  intros Hm Hk s. unfold bind. specialize (Hm s).
  destruct (m s) as [[e|a] s1]; cbn [snd] in *; [exact Hm|].
  rewrite Hk. exact Hm.
Qed.

Lemma keeps_perform self meth :
  sets_flag meth = false -> keeps (perform self meth).
Proof.
  destruct meth as [ | | | | | | | | |n [o|] [mn|] p|n [p|]| | | | | | | | | | | | | ];
    intros Hs; try discriminate Hs; cbn [perform];
    unfold void, Engine.listening, Engine.on_prefinalize,
      Engine.on_finalize, Engine.enable_remote_shutdown, Engine.register,
      Engine.registered, Engine.deregister, Engine.disable_response,
      Engine.disabled_response, Engine.lookup, Engine.address, Engine.addr,
      Engine.create_handle, Engine.create_bulk, Engine.transfer,
      Engine.set_remove, Engine.get_internal_mid, Engine.mid,
      Engine.logger, Engine.__enter__;
    repeat first
      [ apply keeps_ret | apply keeps_raise | apply keeps_getattr
      | match goal with |- keeps (invoke ?c) => exact (keeps_invoke c) end
      | apply keeps_bind; [|intros ?] ].
Qed.

Lemma finalize_engines self (s : State world) :
  engines (Engine.finalize self s).2 = engines s \/
  engines (Engine.finalize self s).2
  = alter (set_finalized true) self (engines s).
Proof.
  unfold Engine.finalize. rewrite bind_getattr.
  destruct (engines s !! self ≫= _mid) as [mid|]; [|by left].
  rewrite bind_invoke.
  destruct (ext_call _ (ext s)) as [[e|[]] w]; [by left|by right].
Qed.

Lemma wait_for_finalize_engines self (s : State world) :
  engines (Engine.wait_for_finalize self s).2 = engines s \/
  engines (Engine.wait_for_finalize self s).2
  = alter (set_finalized true) self (engines s).
Proof.
  unfold Engine.wait_for_finalize. rewrite bind_getattr.
  destruct (engines s !! self ≫= _mid) as [mid|]; [|by left].
  rewrite bind_invoke.
  destruct (ext_call _ (ext s)) as [[e|[]] w]; [by left|by right].
Qed.

(** A method leaves the attributes of every engine alone, or sets
    [_finalized] to true on the engine it is called on. *)
Lemma perform_engines self meth (s : State world) :
  engines (perform self meth s).2 = engines s \/
  (sets_flag meth = true /\
   engines (perform self meth s).2
   = alter (set_finalized true) self (engines s)).
Proof.
  destruct (sets_flag meth) eqn:Hs; [|left; by apply keeps_perform].
  assert (Hfin : engines (Engine.finalize self s).2 = engines s \/
                 (true = true /\
                  engines (Engine.finalize self s).2
                  = alter (set_finalized true) self (engines s))).
  { destruct (finalize_engines self s); [by left|by right]. }
  destruct meth; try discriminate Hs; cbn [perform].
  - exact Hfin.
  - destruct (wait_for_finalize_engines self s); [by left|by right].
  - unfold Engine.__del__. rewrite bind_getattr.
    destruct (engines s !! self ≫= _finalized) as [[|]|];
      [by left|exact Hfin|by left].
  - unfold Engine.__exit__. rewrite bind_getattr.
    destruct (engines s !! self ≫= _finalized) as [[|]|];
      [by left|exact Hfin|by left].
Qed.

Lemma flag_perform self meth l b (s : State world) :
  flag s l = Some b ->
  flag (perform self meth s).2 l = Some b \/
  (sets_flag meth = true /\ self = l /\
   flag (perform self meth s).2 l = Some true).
Proof.
  intros Hb.
  destruct (perform_engines self meth s) as [He|[Hm He]];
    unfold flag in *; rewrite He.
  - left. exact Hb.
  - rewrite lookup_alter. destruct (decide (self = l)) as [->|Hne].
    + right. split; [exact Hm|]. split; [reflexivity|].
      destruct (engines s !! l); [reflexivity|discriminate].
    + left. exact Hb.
Qed.

Lemma flag_construct addr m upt nrt opts l b (s : State world) :
  flag s l = Some b ->
  flag (step (Construct addr m upt nrt opts) s) l = Some b.
Proof.
  intros Hb. unfold step, run, void, bind.
  pose proof (new_run addr m upt nrt opts s) as Hnew. cbn zeta in Hnew.
  rewrite Hnew.
  destruct (ext_call _ (ext s)) as [[e|mid] w]; cbn [snd]; unfold ret;
    cbn [snd]; unfold flag in *; cbn [engines]; [exact Hb|].
  rewrite lookup_insert_ne; [exact Hb|].
  intros Heq. rewrite <- Heq, fresh_engine in Hb. discriminate.
Qed.

Lemma flag_step a l b (s : State world) :
  flag s l = Some b ->
  flag (step a s) l = Some b \/
  (flag (step a s) l = Some true /\
   exists meth, a = Invoke l meth /\ sets_flag meth = true).
Proof.
  intros Hb. destruct a as [addr m upt nrt opts|self meth].
  - left. by apply flag_construct.
  - destruct (flag_perform self meth l b s Hb) as [Hl|(Hm & -> & Hl)].
    + left. exact Hl.
    + right. split; [exact Hl|]. exists meth. split; [reflexivity|exact Hm].
Qed.

Lemma flag_steps_true acts l (s : State world) :
  flag s l = Some true -> flag (steps acts s) l = Some true.
Proof.
  revert s. induction acts as [|a acts IH]; intros s Ht; [exact Ht|].
  cbn. apply IH.
  destruct (flag_step a l true s Ht) as [Hl|[Hl _]]; exact Hl.
Qed.

End Flag.

(** C9.  The [_finalized] flag of an engine is false when [Engine(...)]
    returns it; once true it is true after any sequence of constructions and
    method calls, on this engine or another, whether they return or raise; a
    single action takes it from false to true only when it is [finalize],
    [wait_for_finalize], or the destructor or [__exit__] (which, on an engine
    that is not finalized, are a call of [finalize]) on that engine; and when
    [wait_for_finalize] or [finalize] returns, the flag is true. *)
Theorem finalized_flag_monotonic {world : Type} `{Host world}
    (s : State world) (self : loc) :
  (forall addr m upt nrt opts e s',
      Engine.new addr m upt nrt opts s = (inr e, s') ->
      flag s' e = Some false) /\
  (forall acts,
      flag s self = Some true -> flag (steps acts s) self = Some true) /\
  (forall a,
      flag s self = Some false ->
      flag (step a s) self = Some true ->
      exists meth, a = Invoke self meth /\ sets_flag meth = true) /\
  (flag s self = Some false ->
   Engine.__del__ self s = Engine.finalize self s /\
   Engine.__exit__ self s = Engine.finalize self s) /\
  (forall s',
      Engine.wait_for_finalize self s = (inr tt, s') ->
      flag s' self = Some true) /\
  (forall s',
      Engine.finalize self s = (inr tt, s') -> flag s' self = Some true).
Proof.
  split; [|split; [|split; [|split; [|split]]]].
  - intros addr m upt nrt opts e s' Hnew.
    pose proof (new_run addr m upt nrt opts s) as Hrun. cbn zeta in Hrun.
    rewrite Hrun in Hnew.
    destruct (ext_call _ (ext s)) as [[x|mid] w]; [discriminate|].
    injection Hnew as <- <-. unfold flag. cbn [engines].
    by rewrite lookup_insert_eq.
  - intros acts. apply flag_steps_true.
  - intros a Hf Ht.
    destruct (flag_step a self false s Hf) as [Hl|[_ Hex]]; [|exact Hex].
    rewrite Hl in Ht. discriminate.
  - apply del_not_finalized.
  - intros s' Hw.
    destruct (session_of s self) as [mid|] eqn:Hmid.
    + rewrite (wait_for_finalize_run self mid s Hmid) in Hw.
      destruct (ext_call _ (ext s)) as [[x|[]] w]; [discriminate|].
      injection Hw as <-. unfold flag, session_of in *. cbn [engines].
      rewrite lookup_alter_eq.
      destruct (engines s !! self); [reflexivity|discriminate].
    + unfold session_of in Hmid. unfold Engine.wait_for_finalize in Hw.
      rewrite bind_getattr, Hmid in Hw. discriminate.
  - intros s' Hw.
    destruct (session_of s self) as [mid|] eqn:Hmid.
    + rewrite (finalize_run self mid s Hmid) in Hw.
      destruct (ext_call _ (ext s)) as [[x|[]] w]; [discriminate|].
      injection Hw as <-. unfold flag, session_of in *. cbn [engines].
      rewrite lookup_alter_eq.
      destruct (engines s !! self); [reflexivity|discriminate].
    + unfold session_of in Hmid. unfold Engine.finalize in Hw.
      rewrite bind_getattr, Hmid in Hw. discriminate.
Qed.

(** ** Addresses *)

Section Addresses.
Context {world : Type} `{Host world}.

Lemma lookup_run self mid straddr (s : State world) :
  session_of s self = Some mid ->
  Engine.lookup self straddr s =
  match ext_call (_pymargo.lookup mid straddr) (ext s) with
  | (inr h, w) =>
      (inr (Address.__init__ mid h true),
       mkState (engines s) w (calls s ++ [_pymargo.lookup mid straddr]))
  | (inl e, w) =>
      (inl e,
       mkState (engines s) w (calls s ++ [_pymargo.lookup mid straddr]))
  end.
Proof.
  unfold session_of. intros Hmid.
  unfold Engine.lookup, bind, getattr, invoke, ret. rewrite Hmid.
  destruct (ext_call _ (ext s)) as [[e|h] w]; [reflexivity|].
  cbn [engines]. rewrite Hmid. reflexivity.
Qed.

Lemma addr_run self mid (s : State world) :
  session_of s self = Some mid ->
  Engine.addr self s =
  match ext_call (_pymargo.addr_self mid) (ext s) with
  | (inr h, w) =>
      (inr (Address.__init__ mid h true),
       mkState (engines s) w (calls s ++ [_pymargo.addr_self mid]))
  | (inl e, w) =>
      (inl e, mkState (engines s) w (calls s ++ [_pymargo.addr_self mid]))
  end.
Proof.
  unfold session_of. intros Hmid.
  unfold Engine.addr, bind, getattr, invoke, ret. rewrite Hmid.
  destruct (ext_call _ (ext s)) as [[e|h] w]; [reflexivity|].
  cbn [engines]. rewrite Hmid. reflexivity.
Qed.

Lemma no_session self (s : State world) :
  session_of s self = None ->
  (forall straddr, Engine.lookup self straddr s
                   = (inl (AttributeError "_mid"), s)) /\
  Engine.addr self s = (inl (AttributeError "_mid"), s).
Proof.
  unfold session_of. intros Hmid.
  unfold Engine.lookup, Engine.addr, bind, getattr. rewrite Hmid. done.
Qed.

Lemma copy_run (a : Address.t) (s : State world) :
  let c := _pymargo.addr_dup (Address._mid a) (Address._hg_addr a) in
  Address.copy a s =
  match ext_call c (ext s) with
  | (inr h, w) =>
      (inr (Address.__init__ (Address._mid a) h true),
       mkState (engines s) w (calls s ++ [c]))
  | (inl e, w) => (inl e, mkState (engines s) w (calls s ++ [c]))
  end.
Proof.
  cbn zeta. unfold Address.copy, bind, invoke, ret.
  destruct (ext_call _ (ext s)) as [[e|h] w]; reflexivity.
Qed.

(** Whatever the extension does, a copy that is returned has [_need_del]
    set and belongs to the session of the original. *)
Lemma copy_need_del (a a' : Address.t) (s s' : State world) :
  Address.copy a s = (inr a', s') ->
  Address._need_del a' = true /\ Address._mid a' = Address._mid a.
Proof.
  rewrite copy_run.
  destruct (ext_call _ (ext s)) as [[e|h] w]; [discriminate|].
  intros [= <- _]. split; reflexivity.
Qed.

End Addresses.

(** *** Addresses in the reference extension *)

Lemma ref_addr_dup_ok (w : Ref.world) mid a ss e :
  Ref.sessions w !! mid = Some ss ->
  Ref.endpoints w !! a = Some e ->
  Ref.addr_dup mid a w
  = (inr (fresh (dom (Ref.endpoints w))),
     Ref.with_endpoints (insert (fresh (dom (Ref.endpoints w))) e) w).
Proof.
  intros Hs Ha. unfold Ref.addr_dup, Ref.in_session. rewrite Hs, Ha. done.
Qed.

Lemma ref_addr_free_ok (w : Ref.world) mid a ss e :
  Ref.sessions w !! mid = Some ss ->
  Ref.endpoints w !! a = Some e ->
  Ref.addr_free mid a w = (inr tt, Ref.with_endpoints (delete a) w).
Proof.
  intros Hs Ha. unfold Ref.addr_free, Ref.in_session. rewrite Hs, Ha. done.
Qed.

Lemma ref_addr_cmp_ok (w : Ref.world) mid a b ss ea eb :
  Ref.sessions w !! mid = Some ss ->
  Ref.endpoints w !! a = Some ea ->
  Ref.endpoints w !! b = Some eb ->
  Ref.addr_cmp mid a b w = (inr (bool_decide (ea = eb)), w).
Proof.
  intros Hs Ha Hb. unfold Ref.addr_cmp, Ref.in_session.
  rewrite Hs, Ha, Hb. done.
Qed.

Lemma fresh_endpoint (w : Ref.world) a e :
  Ref.endpoints w !! a = Some e -> fresh (dom (Ref.endpoints w)) <> a.
Proof.
  intros Ha Heq.
  assert (Hn : Ref.endpoints w !! fresh (dom (Ref.endpoints w)) = None)
    by apply not_elem_of_dom, is_fresh.
  rewrite Heq, Ha in Hn. discriminate.
Qed.

(** Releasing an owned address that denotes an endpoint: the destructor
    returns, the handle is gone, every other handle is as it was. *)
Lemma del_owned (s : State Ref.world) (a : Address.t) e :
  Address._need_del a = true ->
  denotes s a e ->
  (Address.__del__ a s).1 = inr tt /\
  Ref.endpoints (ext (Address.__del__ a s).2)
  = delete (Address._hg_addr a) (Ref.endpoints (ext s)) /\
  Ref.sessions (ext (Address.__del__ a s).2) = Ref.sessions (ext s).
Proof.
  intros Hd [[ss Hs] Ha]. unfold Address.__del__. rewrite Hd, invoke_eq.
  cbn [ext_call Ref.host Ref.call fst snd ext].
  rewrite (ref_addr_free_ok _ _ _ ss e Hs Ha). done.
Qed.

(** Copying an address that denotes an endpoint. *)
Lemma copy_owned (s : State Ref.world) (a : Address.t) e :
  denotes s a e ->
  exists a' s',
    Address.copy a s = (inr a', s') /\
    Address._need_del a' = true /\
    Address._mid a' = Address._mid a /\
    Address._hg_addr a' <> Address._hg_addr a /\
    denotes s' a e /\ denotes s' a' e /\
    Ref.endpoints (ext s')
    = <[Address._hg_addr a' := e]> (Ref.endpoints (ext s)) /\
    calls s' = calls s ++ [_pymargo.addr_dup (Address._mid a)
                                             (Address._hg_addr a)].
Proof.
  intros [[ss Hs] Ha].
  pose proof (fresh_endpoint _ _ _ Ha) as Hne.
  eexists _, _. split.
  { rewrite copy_run. cbn [ext_call Ref.host Ref.call].
    rewrite (ref_addr_dup_ok _ _ _ ss e Hs Ha). reflexivity. }
  cbn [Address.__init__ Address._need_del Address._mid Address._hg_addr].
  repeat split.
  - exact Hne.
  - cbn. by exists ss.
  - cbn. rewrite lookup_insert_ne by exact Hne. exact Ha.
  - cbn. by exists ss.
  - cbn. apply lookup_insert_eq.
Qed.

Lemma obtained_denotes (s s1 : State Ref.world) (self : loc)
    (straddr : string) (a : Address.t) :
  Engine.lookup self straddr s = (inr a, s1)
  \/ Engine.addr self s = (inr a, s1) ->
  Address._need_del a = true /\ exists e, denotes s1 a e.
Proof.
  destruct (session_of s self) as [mid|] eqn:Hmid.
  - rewrite (lookup_run self mid straddr s Hmid), (addr_run self mid s Hmid).
    cbn [ext_call Ref.host Ref.call].
    unfold Ref.lookup, Ref.addr_self, Ref.in_session.
    destruct (Ref.sessions (ext s) !! mid) as [ss|] eqn:Hs.
    + intros [Hl|Hl].
      * destruct (decide (straddr ∈ Ref.reachable (ext s)));
          [|discriminate].
        injection Hl as <- <-. split; [reflexivity|].
        exists straddr. split; cbn; [by exists ss|apply lookup_insert_eq].
      * injection Hl as <- <-. split; [reflexivity|].
        exists (Ref.s_self ss).
        split; cbn; [by exists ss|apply lookup_insert_eq].
    + intros [Hl|Hl]; discriminate.
  - destruct (no_session self s Hmid) as [Hl Ha].
    rewrite Hl, Ha. intros [?|?]; discriminate.
Qed.

(** C5.  In the reference extension, an address [a] returned by
    [Engine.lookup] or [Engine.addr] can be copied; the copy has [_need_del]
    set, compares equal to [a] in both directions although its handle is a
    different one, and each of the two can be destroyed without the other
    losing its endpoint. *)
Theorem address_copy_equal_and_owned (s s1 : State Ref.world) (self : loc)
    (straddr : string) (a : Address.t) :
  Engine.lookup self straddr s = (inr a, s1)
  \/ Engine.addr self s = (inr a, s1) ->
  exists a' s2,
    Address.copy a s1 = (inr a', s2) /\
    Address._need_del a' = true /\
    (Address.__eq__ a' a s2).1 = inr true /\
    (Address.__eq__ a a' s2).1 = inr true /\
    Address._hg_addr a' <> Address._hg_addr a /\
    exists e,
      denotes s2 a e /\ denotes s2 a' e /\
      (Address.__del__ a' s2).1 = inr tt /\
      denotes (Address.__del__ a' s2).2 a e /\
      Ref.endpoints (ext (Address.__del__ a' s2).2) !! Address._hg_addr a'
      = None /\
      (Address.__del__ a s2).1 = inr tt /\
      denotes (Address.__del__ a s2).2 a' e /\
      Ref.endpoints (ext (Address.__del__ a s2).2) !! Address._hg_addr a
      = None.
Proof.
  intros Hobt.
  destruct (obtained_denotes s s1 self straddr a Hobt) as [Hda [e Hden]].
  destruct (copy_owned s1 a e Hden)
    as (a' & s2 & Hcopy & Hda' & Hmid & Hne & Ha & Ha' & _ & _).
  exists a', s2. split; [exact Hcopy|]. split; [exact Hda'|].
  destruct Ha as [[ss Hs] Hea]. destruct Ha' as [[ss' Hs'] Hea'].
  split; [|split; [|split; [exact Hne|]]].
  - unfold Address.__eq__. rewrite invoke_eq.
    cbn [ext_call Ref.host Ref.call fst].
    rewrite (ref_addr_cmp_ok _ _ _ _ ss' e e Hs' Hea' Hea).
    cbn. by rewrite bool_decide_eq_true_2.
  - unfold Address.__eq__. rewrite invoke_eq.
    cbn [ext_call Ref.host Ref.call fst].
    rewrite (ref_addr_cmp_ok _ _ _ _ ss e e Hs Hea Hea').
    cbn. by rewrite bool_decide_eq_true_2.
  - exists e.
    assert (Hden_a : denotes s2 a e) by (split; [by exists ss|exact Hea]).
    assert (Hden_a' : denotes s2 a' e) by (split; [by exists ss'|exact Hea']).
    destruct (del_owned s2 a' e Hda' Hden_a') as (Hr' & He' & Hss').
    destruct (del_owned s2 a e Hda Hden_a) as (Hr & He & Hss).
    split; [exact Hden_a|]. split; [exact Hden_a'|].
    split; [exact Hr'|]. split.
    { split; [rewrite Hss'; by exists ss|].
      rewrite He', lookup_delete_ne by exact Hne. exact Hea. }
    split; [rewrite He'; apply lookup_delete_eq|].
    split; [exact Hr|]. split.
    { split; [rewrite Hss; by exists ss'|].
      rewrite He, lookup_delete_ne by (intros Heq; by apply Hne).
      exact Hea'. }
    rewrite He. apply lookup_delete_eq.
Qed.

(** ** The address of the sender of a handle *)

Section HandlerAddress.
Context {world : Type} `{Host world}.

Lemma temporary_borrowed {A} (tmp : Address.t) (m : M world A) s :
  Address._need_del tmp = false -> Address.temporary tmp m s = m s.
Proof.
  intros Hd. unfold Address.temporary, Address.__del__. rewrite Hd.
  by destruct (m s).
Qed.

Lemma handler_run (h : Handle) (s : State world) :
  let c1 := _pymargo.Handle_get_mid h in
  let c2 := _pymargo.Handle_get_hg_addr h in
  __Handler_get_Address h s =
  match ext_call c1 (ext s) with
  | (inl e, w1) => (inl e, mkState (engines s) w1 (calls s ++ [c1]))
  | (inr mid, w1) =>
      match ext_call c2 w1 with
      | (inl e, w2) =>
          (inl e, mkState (engines s) w2 ((calls s ++ [c1]) ++ [c2]))
      | (inr b, w2) =>
          Address.copy (Address.__init__ mid b false)
            (mkState (engines s) w2 ((calls s ++ [c1]) ++ [c2]))
      end
  end.
Proof.
  cbn zeta. unfold __Handler_get_Address, bind, invoke.
  destruct (ext_call _ (ext s)) as [[e|mid] w1]; [reflexivity|].
  cbn [ext engines calls].
  destruct (ext_call _ w1) as [[e|b] w2]; [reflexivity|].
  by rewrite temporary_borrowed.
Qed.

(** Whatever the extension does, [get_addr] releases no address, and the
    address it returns has [_need_del] set. *)
Lemma handler_frees_nothing (h : Handle) (s : State world) :
  frees_nothing (issued (__Handler_get_Address h) s) /\
  forall a s', __Handler_get_Address h s = (inr a, s') ->
               Address._need_del a = true.
Proof.
  pose proof (handler_run h s) as Hrun. cbn zeta in Hrun.
  destruct (ext_call _ (ext s)) as [[e|mid] w1].
  { split; [|rewrite Hrun; discriminate].
    rewrite (issued_app _ s [_pymargo.Handle_get_mid h])
      by (by rewrite Hrun).
    intros m a [?|[]]. discriminate. }
  destruct (ext_call _ w1) as [[e|b] w2].
  { split; [|rewrite Hrun; discriminate].
    rewrite (issued_app _ s [_pymargo.Handle_get_mid h;
                             _pymargo.Handle_get_hg_addr h])
      by (rewrite Hrun; cbn; by rewrite <- app_assoc).
    intros m a [?|[?|[]]]; discriminate. }
  rewrite copy_run in Hrun. cbn [ext engines calls] in Hrun. split.
  - rewrite (issued_app _ s [_pymargo.Handle_get_mid h;
                             _pymargo.Handle_get_hg_addr h;
                             _pymargo.addr_dup mid b]).
    + intros m a [?|[?|[?|[]]]]; discriminate.
    + rewrite Hrun.
      destruct (ext_call _ w2) as [[e|x] w3]; cbn;
        by rewrite <- !app_assoc.
  - intros a s'. rewrite Hrun.
    destruct (ext_call _ w2) as [[e|x] w3]; [discriminate|].
    by intros [= <- _].
Qed.

End HandlerAddress.

(** C10.  In the reference extension, for a handle [h] of a live session
    whose sender address [b] denotes the endpoint [e]: [h.get_addr()] returns
    an address with [_need_del] set whose handle is not [b] and denotes [e];
    the calls issued are the two reads of the handle and one [addr_dup], so
    [b] is not released and still denotes [e]; the returned address still
    denotes [e] once the transport has taken [b] back at the end of the
    handler; and its destructor releases its own handle and leaves [b]
    alone. *)
Theorem handler_address_is_owned_duplicate (s : State Ref.world)
    (h : Handle) (mid : margo_instance_id) (b : hg_addr_t) (id : hg_id_t)
    (e : string) :
  Ref.handles (ext s) !! h = Some (mid, b, id) ->
  is_Some (Ref.sessions (ext s) !! mid) ->
  Ref.endpoints (ext s) !! b = Some e ->
  exists a s',
    __Handler_get_Address h s = (inr a, s') /\
    Address._need_del a = true /\
    Address._mid a = mid /\
    Address._hg_addr a <> b /\
    issued (__Handler_get_Address h) s
    = [_pymargo.Handle_get_mid h; _pymargo.Handle_get_hg_addr h;
       _pymargo.addr_dup mid b] /\
    frees_nothing (issued (__Handler_get_Address h) s) /\
    Ref.endpoints (ext s') !! b = Some e /\
    denotes s' a e /\
    denotes (handler_returns b s') a e /\
    (Address.__del__ a s').1 = inr tt /\
    Ref.endpoints (ext (Address.__del__ a s').2) !! Address._hg_addr a = None /\
    Ref.endpoints (ext (Address.__del__ a s').2) !! b = Some e.
Proof.
  intros Hh Hs Hb.
  pose proof (handler_run h s) as Hrun.
  cbn [ext_call Ref.host Ref.call] in Hrun. cbn zeta in Hrun.
  unfold Ref.Handle_get_mid, Ref.Handle_get_hg_addr in Hrun.
  rewrite Hh in Hrun. cbv beta iota in Hrun. rewrite Hh in Hrun.
  cbv beta iota in Hrun.
  set (s0 := mkState (engines s) (ext s)
               ((calls s ++ [_pymargo.Handle_get_mid h])
                ++ [_pymargo.Handle_get_hg_addr h])) in *.
  assert (Hden : denotes s0 (Address.__init__ mid b false) e)
    by (split; [exact Hs|exact Hb]).
  destruct (copy_owned s0 _ e Hden)
    as (a & s' & Hcopy & Hda & Hmid & Hne & Hborrowed & Ha & Hends & Hcalls).
  cbn [Address.__init__ Address._mid Address._hg_addr] in *.
  exists a, s'. rewrite Hrun, Hcopy.
  assert (Hiss : issued (__Handler_get_Address h) s
                 = [_pymargo.Handle_get_mid h; _pymargo.Handle_get_hg_addr h;
                    _pymargo.addr_dup mid b]).
  { apply issued_app. rewrite Hrun, Hcopy. cbn [snd]. rewrite Hcalls.
    unfold s0. cbn [calls]. by rewrite <- !app_assoc. }
  destruct (del_owned s' a e Hda Ha) as (Hr & He & _).
  split_and!; try assumption; try reflexivity.
  - rewrite Hiss. intros m x [?|[?|[?|[]]]]; discriminate.
  - apply Hborrowed.
  - split; [apply Ha|]. cbn.
    rewrite lookup_delete_ne by (intros Heq; by apply Hne). apply Ha.
  - rewrite He. apply lookup_delete_eq.
  - rewrite He, lookup_delete_ne by exact Hne. apply Hborrowed.
Qed.

(** ** The registry *)

Section RegistryCalls.
Context {world : Type} `{Host world}.

Lemma register_server_run self mid rpc_name o mn provider_id
    (s : State world) :
  session_of s self = Some mid ->
  Engine.register self rpc_name (Some o) (Some mn) provider_id s
  = invoke (_pymargo.register mid rpc_name provider_id o mn) s.
Proof.
  unfold session_of. intros Hmid. unfold Engine.register.
  by rewrite bind_getattr, Hmid.
Qed.

Lemma registered_provider_run self mid rpc_name provider_id
    (s : State world) :
  session_of s self = Some mid ->
  Engine.registered self rpc_name (Some provider_id) s
  = invoke (_pymargo.registered_provider mid rpc_name provider_id) s.
Proof.
  unfold session_of. intros Hmid. unfold Engine.registered.
  by rewrite bind_getattr, Hmid.
Qed.

Lemma register_no_session self rpc_name o mn provider_id
    (s : State world) :
  session_of s self = None ->
  Engine.register self rpc_name (Some o) (Some mn) provider_id s
  = (inl (AttributeError "_mid"), s).
Proof.
  unfold session_of. intros Hmid. unfold Engine.register.
  by rewrite bind_getattr, Hmid.
Qed.

End RegistryCalls.

Lemma rpc_id_inj n1 p1 n2 p2 :
  Ref.rpc_id n1 p1 = Ref.rpc_id n2 p2 -> n1 = n2 /\ p1 = p2.
Proof.
  unfold Ref.rpc_id. intros [= Henc].
  apply (inj encode) in Henc. by injection Henc.
Qed.

Lemma ref_registered_provider_ok (w : Ref.world) mid ss rpc_name q :
  Ref.sessions w !! mid = Some ss ->
  Ref.registered_provider mid rpc_name q w
  = (inr (Ref.s_registry ss !! (rpc_name, q)), w).
Proof.
  intros Hs. unfold Ref.registered_provider, Ref.in_session.
  by rewrite Hs.
Qed.

(** C6.  In the reference extension, when [register(name, target, method, P)]
    returns an id, that id is the one of the pair (name, P) and
    [registered(name, P)] then returns it.  For [Q] different from [P], the
    registration under [P] does not touch the namespace of [Q]:
    [registered(name, Q)] answers what it answered before, hence none for a
    (name, Q) that is not registered, and the id of (name, Q) is a different
    one. *)
Theorem registered_after_register (s s1 : State Ref.world) (self : loc)
    (rpc_name : string) (o : PyObject) (mn : string) (P Q : Z)
    (id : hg_id_t) :
  Engine.register self rpc_name (Some o) (Some mn) P s = (inr id, s1) ->
  Q <> P ->
  id = Ref.rpc_id rpc_name P /\
  (Engine.registered self rpc_name (Some P) s1).1 = inr (Some id) /\
  (Engine.registered self rpc_name (Some Q) s1).1
  = (Engine.registered self rpc_name (Some Q) s).1 /\
  ((Engine.registered self rpc_name (Some Q) s).1 = inr None ->
   (Engine.registered self rpc_name (Some Q) s1).1 = inr None) /\
  Ref.rpc_id rpc_name Q <> id.
Proof.
  intros Hreg HQ.
  destruct (session_of s self) as [mid|] eqn:Hmid;
    [|rewrite (register_no_session _ _ _ _ _ _ Hmid) in Hreg; discriminate].
  rewrite (register_server_run _ mid _ _ _ _ _ Hmid), invoke_eq in Hreg.
  cbn [ext_call Ref.host Ref.call] in Hreg.
  unfold Ref.register, Ref.in_session in Hreg.
  destruct (Ref.sessions (ext s) !! mid) as [ss|] eqn:Hs; [|discriminate].
  cbn [fst snd] in Hreg. injection Hreg as <- <-.
  assert (Hmid1 : forall (w : Ref.world) c,
             session_of (mkState (engines s) w c) self = Some mid)
    by (intros; exact Hmid).
  assert (Hafter : forall q,
    (Engine.registered self rpc_name (Some q)
       (mkState (engines s)
          (Ref.with_sessions
             (alter (Ref.set_registry
                       (<[(rpc_name, P) := Ref.rpc_id rpc_name P]>
                          (Ref.s_registry ss))
                       (<[Ref.rpc_id rpc_name P := (o, mn, P)]>
                          (Ref.s_handlers ss))) mid) (ext s))
          (calls s ++ [_pymargo.register mid rpc_name P o mn]))).1
    = inr (<[(rpc_name, P) := Ref.rpc_id rpc_name P]> (Ref.s_registry ss)
             !! (rpc_name, q))).
  { intros q. rewrite (registered_provider_run _ mid _ _ _ (Hmid1 _ _)).
    rewrite invoke_eq. cbn [ext_call Ref.host Ref.call fst ext].
    match goal with
    | |- context [alter ?f mid] =>
        rewrite (ref_registered_provider_ok _ mid (f ss))
    end.
    - reflexivity.
    - cbn. by rewrite lookup_alter_eq, Hs. }
  assert (Hbefore :
    (Engine.registered self rpc_name (Some Q) s).1
    = inr (Ref.s_registry ss !! (rpc_name, Q))).
  { rewrite (registered_provider_run _ mid _ _ _ Hmid), invoke_eq.
    cbn [ext_call Ref.host Ref.call fst].
    by rewrite (ref_registered_provider_ok _ _ ss). }
  assert (HafterQ :
    (<[(rpc_name, P) := Ref.rpc_id rpc_name P]> (Ref.s_registry ss))
      !! (rpc_name, Q) = Ref.s_registry ss !! (rpc_name, Q)).
  { apply lookup_insert_ne. intros [= HPQ]. by apply HQ. }
  split; [reflexivity|]. split.
  { rewrite Hafter. by rewrite lookup_insert_eq. }
  split.
  { rewrite Hafter, Hbefore, HafterQ. reflexivity. }
  split.
  { intros Hnone. rewrite Hafter, HafterQ, <- Hbefore. exact Hnone. }
  intros Heq. apply rpc_id_inj in Heq as [_ Heq]. by apply HQ.
Qed.

(** * The properties on example runs *)

(** C1 on a run: on the live engine, [register("echo")] is the client-side
    registration and [register("echo", obj, "echo", 7)] the server-side
    one. *)
Lemma register_dispatch_run :
  session_of Run.live 0%N = Some 1%N /\
  Engine.register (H := Scripted.permissive) 0%N "echo" None None 7 Run.live
  = invoke (H := Scripted.permissive)
           (_pymargo.register_on_client 1%N "echo" 7) Run.live /\
  Engine.register (H := Scripted.permissive) 0%N "echo"
                  (Some (PyOther "service")) (Some "echo") 7 Run.live
  = invoke (H := Scripted.permissive)
           (_pymargo.register 1%N "echo" 7 (PyOther "service") "echo")
           Run.live.
Proof.
  assert (Hmid : session_of Run.live 0%N = Some 1%N)
    by (vm_compute; reflexivity).
  split; [exact Hmid|].
  destruct (register_dispatch (H := Scripted.permissive) 0%N "echo" 7
              Run.live) as (_ & _ & Hboth).
  destruct (Hboth 1%N Hmid) as [Hclient Hserver].
  split; [exact Hclient|apply Hserver].
Defined.

(** Construction on an extension whose [init] fails: the exception comes
    out, no engine exists afterwards, and [init] is the only call made. *)
Lemma construction_failure_run :
  Engine.new (H := Run.failing_init) "na+sm" server false 0
             (OptDict [("key", "value")]) Scripted.start
  = (inl (MargoException "scripted failure"),
     mkState ∅ tt [_pymargo.init "na+sm" server false 0 "key:value"]).
Proof. vm_compute. reflexivity. Qed.

(** C2, refuted on a run: after [finalize()] has returned, the flag is true
    and [lookup], [register], [registered], [addr], [create_handle],
    [create_bulk], [transfer] and [on_finalize] all return. *)
Lemma finalized_engine_operations_return :
  let H := Scripted.permissive in
  let a := Address.__init__ 1%N 2%N true in
  let b := {| bulk_engine := 0%N; _hg_bulk := 6%N |} in
  (Engine.finalize 0%N Run.live).1 = inr tt /\
  flag Run.finalized 0%N = Some true /\
  (Engine.lookup 0%N Run.peer Run.finalized).1 = inr a /\
  (Engine.register 0%N "echo" None None 0 Run.finalized).1 = inr 7%N /\
  (Engine.registered 0%N "echo" None Run.finalized).1 = inr None /\
  (Engine.addr 0%N Run.finalized).1 = inr (Address.__init__ 1%N 3%N true) /\
  (Engine.create_handle 0%N a 7%N Run.finalized).1 = inr 5%N /\
  (Engine.create_bulk 0%N [] read_write Run.finalized).1 = inr b /\
  (Engine.transfer 0%N pull a b 0 b 0 0 Run.finalized).1 = inr tt /\
  (Engine.on_finalize 0%N (PyOther "callback") Run.finalized).1 = inr tt /\
  calls (Engine.lookup 0%N Run.peer Run.finalized).2
  = calls Run.finalized ++ [_pymargo.lookup 1%N Run.peer].
Proof. vm_compute. repeat split; reflexivity. Qed.

(** C2 on a run: [lookup] on the finalized engine issues its call. *)
Lemma finalized_engine_forwards_run :
  flag Run.finalized 0%N = Some true /\
  session_of Run.finalized 0%N = Some 1%N /\
  issued (perform (H := Scripted.permissive) 0%N (m_lookup Run.peer))
         Run.finalized
  = [_pymargo.lookup 1%N Run.peer].
Proof.
  assert (Hf : flag Run.finalized 0%N = Some true)
    by (vm_compute; reflexivity).
  assert (Hmid : session_of Run.finalized 0%N = Some 1%N)
    by (vm_compute; reflexivity).
  split; [exact Hf|]. split; [exact Hmid|].
  exact (proj1 (finalized_engine_forwards (H := Scripted.permissive) 0%N 1%N
                  (m_lookup Run.peer) Run.finalized Hf Hmid)).
Defined.

(** C3, refuted on a run: when [_pymargo.finalize] raises, [finalize()]
    raises the same exception, [_finalized] is still false, and the calls
    made are [init] and the failed [finalize]: nothing was logged. *)
Lemma finalize_failure_is_raised :
  let H := Run.failing_finalize in
  let r := Engine.finalize 0%N Run.live in
  r.1 = inl (MargoException "scripted failure") /\
  flag r.2 0%N = Some false /\
  calls r.2 = [_pymargo.init "na+sm" server false 0 "";
               _pymargo.finalize 1%N].
Proof. vm_compute. repeat split; reflexivity. Qed.

(** C3 on a run. *)
Lemma finalize_failure_propagates_run :
  session_of Run.live 0%N = Some 1%N /\
  ext_call (Host := Run.failing_finalize) (_pymargo.finalize 1%N)
           (ext Run.live)
  = (inl (MargoException "scripted failure"), tt) /\
  Engine.finalize (H := Run.failing_finalize) 0%N Run.live
  = (inl (MargoException "scripted failure"),
     mkState (engines Run.live) tt
             (calls Run.live ++ [_pymargo.finalize 1%N])).
Proof.
  assert (Hmid : session_of Run.live 0%N = Some 1%N)
    by (vm_compute; reflexivity).
  assert (Hfail : ext_call (Host := Run.failing_finalize)
                    (_pymargo.finalize 1%N) (ext Run.live)
                  = (inl (MargoException "scripted failure"), tt))
    by (vm_compute; reflexivity).
  split; [exact Hmid|]. split; [exact Hfail|].
  exact (proj1 (finalize_failure_propagates (H := Run.failing_finalize)
                  0%N 1%N _ tt Run.live Hmid Hfail)).
Defined.

(** C5 on a run: the address returned by [lookup(peer)] and its copy. *)
Lemma address_copy_run :
  let a := Address.__init__ 0%N 0%N true in
  Engine.lookup 0%N Run.peer Run.ref_live = (inr a, Run.ref_looked_up) /\
  exists a' s2,
    Address.copy a Run.ref_looked_up = (inr a', s2) /\
    Address._need_del a' = true /\
    (Address.__eq__ a' a s2).1 = inr true /\
    Address._hg_addr a' <> Address._hg_addr a.
Proof.
  cbv zeta.
  assert (Hl : Engine.lookup 0%N Run.peer Run.ref_live
               = (inr (Address.__init__ 0%N 0%N true), Run.ref_looked_up))
    by (vm_compute; reflexivity).
  split; [exact Hl|].
  destruct (address_copy_equal_and_owned Run.ref_live Run.ref_looked_up 0%N
              Run.peer _ (or_introl Hl))
    as (a' & s2 & Hcopy & Hdel & Heq & _ & Hne & _).
  exists a', s2. repeat split; assumption.
Defined.

(** The same name under two provider ids: on an engine where "echo" is
    registered under 8, registering "echo" under 7 succeeds, and each of the
    two registrations is then found under its own id. *)
Lemma registrations_coexist_run :
  let r := Engine.register 0%N "echo" (Some (PyOther "service"))
                           (Some "echo") 7 Run.ref_registered_8 in
  r.1 = inr (Ref.rpc_id "echo" 7) /\
  (Engine.registered 0%N "echo" (Some 7) r.2).1
  = inr (Some (Ref.rpc_id "echo" 7)) /\
  (Engine.registered 0%N "echo" (Some 8) r.2).1
  = inr (Some (Ref.rpc_id "echo" 8)).
Proof. vm_compute. repeat split; reflexivity. Qed.

(** C6 on a run: on the live engine nothing is registered under 8. *)
Lemma registered_after_register_run :
  let r := Engine.register 0%N "echo" (Some (PyOther "service"))
                           (Some "echo") 7 Run.ref_live in
  r = (inr (Ref.rpc_id "echo" 7), r.2) /\
  (8 <> 7)%Z /\
  (Engine.registered 0%N "echo" (Some 8) Run.ref_live).1 = inr None /\
  (Engine.registered 0%N "echo" (Some 7) r.2).1
  = inr (Some (Ref.rpc_id "echo" 7)) /\
  (Engine.registered 0%N "echo" (Some 8) r.2).1 = inr None.
Proof.
  cbv zeta.
  assert (Hr : Engine.register 0%N "echo" (Some (PyOther "service"))
                 (Some "echo") 7 Run.ref_live
               = (inr (Ref.rpc_id "echo" 7),
                  (Engine.register 0%N "echo" (Some (PyOther "service"))
                     (Some "echo") 7 Run.ref_live).2))
    by (vm_compute; reflexivity).
  assert (Hne : (8 <> 7)%Z) by lia.
  assert (Hnone : (Engine.registered 0%N "echo" (Some 8) Run.ref_live).1
                  = inr None) by (vm_compute; reflexivity).
  destruct (registered_after_register _ _ _ _ _ _ _ _ _ Hr Hne)
    as (_ & HP & _ & HQ & _).
  split; [exact Hr|]. split; [exact Hne|]. split; [exact Hnone|].
  split; [exact HP|exact (HQ Hnone)].
Defined.

(** C9 on a run: [finalize()] returns on the live engine; from then on the
    flag is true whatever is done. *)
Lemma finalized_flag_run :
  let H := Scripted.permissive in
  Engine.finalize 0%N Run.live = (inr tt, Run.finalized) /\
  flag Run.finalized 0%N = Some true /\
  flag (steps [Invoke 0%N (m_lookup Run.peer);
               Construct "na+sm" client false 0 (OptStr "");
               Invoke 0%N m_finalize; Invoke 0%N m_del]
              Run.finalized) 0%N = Some true.
Proof.
  cbv zeta.
  assert (Hfin : Engine.finalize (H := Scripted.permissive) 0%N Run.live
                 = (inr tt, Run.finalized)) by (vm_compute; reflexivity).
  destruct (finalized_flag_monotonic (H := Scripted.permissive) Run.live 0%N)
    as (_ & _ & _ & _ & _ & Hret).
  destruct (finalized_flag_monotonic (H := Scripted.permissive)
              Run.finalized 0%N) as (_ & Hmono & _).
  split; [exact Hfin|].
  split; [exact (Hret _ Hfin)|].
  exact (Hmono _ (Hret _ Hfin)).
Defined.

(** C10 on a run: the address of the handle created for [peer]. *)
Lemma handler_address_run :
  Ref.handles (ext Run.ref_with_handle) !! 0%N = Some (0%N, 0%N, 9%N) /\
  Ref.endpoints (ext Run.ref_with_handle) !! 0%N = Some Run.peer /\
  exists a s',
    __Handler_get_Address 0%N Run.ref_with_handle = (inr a, s') /\
    Address._need_del a = true /\
    Address._hg_addr a <> 0%N /\
    denotes (handler_returns 0%N s') a Run.peer.
Proof.
  assert (Hh : Ref.handles (ext Run.ref_with_handle) !! 0%N
               = Some (0%N, 0%N, 9%N)) by (vm_compute; reflexivity).
  assert (Hs : is_Some (Ref.sessions (ext Run.ref_with_handle) !! 0%N))
    by (vm_compute; eexists; reflexivity).
  assert (Hb : Ref.endpoints (ext Run.ref_with_handle) !! 0%N
               = Some Run.peer) by (vm_compute; reflexivity).
  split; [exact Hh|]. split; [exact Hb|].
  destruct (handler_address_is_owned_duplicate Run.ref_with_handle 0%N 0%N
              0%N 9%N Run.peer Hh Hs Hb)
    as (a & s' & Hrun & Hdel & _ & Hne & _ & _ & _ & _ & Hret & _).
  exists a, s'. repeat split; try assumption; apply Hret.
Defined.

(** * Further properties of the code *)

(** ** Finalization, the context manager and the destructor *)

Section FinalizeOnce.
Context {world : Type} `{Host world}.

Lemma finalize_returns_flag self (s s' : State world) :
  Engine.finalize self s = (inr tt, s')
  \/ Engine.wait_for_finalize self s = (inr tt, s') ->
  flag s' self = Some true /\ session_of s' self = session_of s self.
Proof.
  destruct (session_of s self) as [mid|] eqn:Hmid.
  - rewrite (finalize_run self mid s Hmid),
      (wait_for_finalize_run self mid s Hmid).
    unfold flag, session_of in *.
    intros [Hr|Hr];
      destruct (ext_call _ (ext s)) as [[x|[]] w]; try discriminate;
      injection Hr as <-; cbn [engines]; rewrite lookup_alter_eq;
      destruct (engines s !! self); try discriminate; split; done.
  - unfold session_of in Hmid.
    unfold Engine.finalize, Engine.wait_for_finalize.
    rewrite !bind_getattr, Hmid. intros [?|?]; discriminate.
Qed.

Lemma exit_run self mid (s : State world) :
  flag s self = Some false ->
  session_of s self = Some mid ->
  Engine.__exit__ self s =
  match ext_call (_pymargo.finalize mid) (ext s) with
  | (inr _, w) =>
      (inr tt,
       mkState (alter (set_finalized true) self (engines s)) w
               (calls s ++ [_pymargo.finalize mid]))
  | (inl e, w) =>
      (inl e, mkState (engines s) w (calls s ++ [_pymargo.finalize mid]))
  end.
Proof.
  intros Hf Hmid.
  destruct (del_not_finalized self s Hf) as [_ ->].
  by apply finalize_run.
Qed.

End FinalizeOnce.

(** X1.  Once [finalize] or [wait_for_finalize] has returned on an engine,
    [__exit__] and the destructor of that engine return without calling the
    extension and without changing anything: the extension's [finalize] is
    not issued a second time by them. *)
Theorem silent_after_finalization {world : Type} `{Host world}
    (self : loc) (s s' : State world) :
  Engine.finalize self s = (inr tt, s')
  \/ Engine.wait_for_finalize self s = (inr tt, s') ->
  Engine.__exit__ self s' = (inr tt, s') /\
  Engine.__del__ self s' = (inr tt, s') /\
  issued (Engine.__exit__ self) s' = [] /\
  issued (Engine.__del__ self) s' = [].
Proof.
  intros Hret.
  destruct (finalize_returns_flag self s s' Hret) as [Hf _].
  destruct (del_finalized self s' Hf) as [Hdel Hexit].
  split; [exact Hexit|]. split; [exact Hdel|].
  split; apply issued_app; rewrite ?Hexit, ?Hdel; cbn; by rewrite app_nil_r.
Qed.

(** X2.  The context manager.  [__enter__] returns the engine it is called
    on and changes nothing.  On an engine that is not finalized, [__exit__]
    issues exactly one call, [finalize] on the engine's session; when it
    returns, the flag is true and the destructor that follows is silent;
    when the extension's [finalize] raises, [__exit__] raises the same
    exception and the flag is still false. *)
Theorem exit_finalizes_once {world : Type} `{Host world}
    (self : loc) (mid : margo_instance_id) (s : State world) :
  flag s self = Some false ->
  session_of s self = Some mid ->
  Engine.__enter__ self s = (inr self, s) /\
  issued (Engine.__exit__ self) s = [_pymargo.finalize mid] /\
  (Engine.__exit__ self s).1
  = outcome (ext_call (_pymargo.finalize mid) (ext s)).1 /\
  (forall s',
      Engine.__exit__ self s = (inr tt, s') ->
      flag s' self = Some true /\ Engine.__del__ self s' = (inr tt, s')) /\
  (forall e s',
      Engine.__exit__ self s = (inl e, s') -> flag s' self = Some false).
Proof.
  intros Hf Hmid.
  pose proof (exit_run self mid s Hf Hmid) as Hrun.
  split; [reflexivity|]. split.
  { apply issued_app. rewrite Hrun.
    by destruct (ext_call _ (ext s)) as [[e|x] w]. }
  split.
  { rewrite Hrun. by destruct (ext_call _ (ext s)) as [[e|x] w]. }
  split.
  - intros s' Hret.
    assert (Hfin : Engine.finalize self s = (inr tt, s')).
    { destruct (del_not_finalized self s Hf) as [_ <-]. exact Hret. }
    destruct (finalize_returns_flag self s s' (or_introl Hfin)) as [Ht _].
    split; [exact Ht|]. by destruct (del_finalized self s' Ht).
  - intros e s' Hraise. rewrite Hrun in Hraise.
    destruct (ext_call _ (ext s)) as [[x|x] w]; [|discriminate].
    injection Hraise as _ <-. exact Hf.
Qed.

(** ** The calls of a method *)

Lemma request_session (mid : margo_instance_id) (meth : method)
    (c : _pymargo.call) :
  request mid meth = Some c -> call_session c = Some mid.
Proof.
  destruct meth as [ | | | | | | | | |n [o|] [mn|] p|n [p|]| | | | | | | | | | | | | ];
    cbn; intros [= <-]; reflexivity.
Qed.

Section MethodCalls.
Context {world : Type} `{Host world}.

Lemma perform_issued self mid meth (s : State world) :
  session_of s self = Some mid ->
  issued (perform self meth) s = requests mid (flag s self) meth.
Proof.
  intros Hmid.
  assert (Hnil : forall A (m : M world A), (m s).2 = s -> issued m s = [])
    by (intros A m Hm; apply issued_app; rewrite Hm; by rewrite app_nil_r).
  assert (Hfin : issued (Engine.finalize self) s = [_pymargo.finalize mid]).
  { apply issued_app. rewrite (finalize_run self mid s Hmid).
    by destruct (ext_call _ (ext s)) as [[e|x] w]. }
  unfold session_of in Hmid. unfold requests, flag.
  destruct meth as [ | | | | | | | | |n [o|] [mn|] p|n [p|]| | | | | | | | | | | | | ];
    cbn [consults_flag request];
    first
      [ (* the destructor and __exit__ *)
        cbn [perform]; unfold Engine.__del__, Engine.__exit__, issued;
        rewrite bind_getattr;
        destruct (engines s !! self ≫= _finalized) as [[|]|];
        first [ exact Hfin | apply Hnil; reflexivity ]
      | (* operations without a call *)
        apply Hnil; forward_case Hmid;
        try (destruct (engines s !! self ≫= _logger));
        reflexivity
      | (* operations with a call *)
        apply issued_app; forward_case Hmid;
        destruct (ext_call _ (ext s)) as [[e|v] w];
        forward_case Hmid; reflexivity ].
Qed.

End MethodCalls.

(** X4.  Whatever the state of its flag, a method called on an engine that
    holds the session [mid] issues at most one call to the extension, and
    that call is made on [mid]: an engine never uses another session. *)
Theorem operations_use_own_session {world : Type} `{Host world}
    (self : loc) (mid : margo_instance_id) (meth : method)
    (s : State world) :
  session_of s self = Some mid ->
  (length (issued (perform self meth) s) <= 1)%nat /\
  forall c, In c (issued (perform self meth) s) ->
            call_session c = Some mid.
Proof.
  intros Hmid. rewrite (perform_issued self mid meth s Hmid).
  unfold requests.
  destruct (consults_flag meth).
  - destruct (flag s self) as [[|]|]; cbn; split; try lia;
      intros c Hc; try contradiction.
    destruct Hc as [<-|[]]. reflexivity.
  - destruct (request mid meth) as [c0|] eqn:Hreq; cbn; split; try lia;
      intros c Hc; try contradiction.
    destruct Hc as [<-|[]]. by apply (request_session mid meth).
Qed.

(** ** What an action does to the engines *)

Section EngineAttributes.
Context {world : Type} `{Host world}.

Lemma finalize_raises_engines self e (s : State world) :
  ((Engine.finalize self s).1 = inl e ->
   engines (Engine.finalize self s).2 = engines s) /\
  ((Engine.wait_for_finalize self s).1 = inl e ->
   engines (Engine.wait_for_finalize self s).2 = engines s).
Proof.
  unfold Engine.finalize, Engine.wait_for_finalize.
  rewrite !bind_getattr.
  destruct (engines s !! self ≫= _mid) as [mid|]; [|done].
  rewrite !bind_invoke. split;
    destruct (ext_call _ (ext s)) as [[x|[]] w]; cbn; done.
Qed.

Lemma perform_raises_engines self meth e (s : State world) :
  (perform self meth s).1 = inl e ->
  engines (perform self meth s).2 = engines s.
Proof.
  destruct (sets_flag meth) eqn:Hs; [|intros _; by apply keeps_perform].
  destruct (finalize_raises_engines self e s) as [Hfin Hwait].
  destruct meth; try discriminate Hs; cbn [perform].
  - exact Hfin.
  - exact Hwait.
  - unfold Engine.__del__. rewrite bind_getattr.
    destruct (engines s !! self ≫= _finalized) as [[|]|];
      [done|exact Hfin|done].
  - unfold Engine.__exit__. rewrite bind_getattr.
    destruct (engines s !! self ≫= _finalized) as [[|]|];
      [done|exact Hfin|done].
Qed.

Lemma construct_engines addr m upt nrt opts (s : State world) :
  engines (step (Construct addr m upt nrt opts) s) = engines s \/
  exists mid,
    engines (step (Construct addr m upt nrt opts) s)
    = <[fresh (dom (engines s)) := constructed (fresh (dom (engines s))) mid]>
        (engines s).
Proof.
  unfold step, run, void, bind.
  pose proof (new_run addr m upt nrt opts s) as Hnew. cbn zeta in Hnew.
  rewrite Hnew.
  destruct (ext_call _ (ext s)) as [[e|mid] w]; [by left|].
  right. by exists mid.
Qed.

(** An action keeps every engine that exists, with the same session and the
    same logger; it can only set its flag. *)
Lemma step_attributes a l o (s : State world) :
  engines s !! l = Some o ->
  engines (step a s) !! l = Some o \/
  engines (step a s) !! l = Some (set_finalized true o).
Proof.
  intros Hl. destruct a as [addr m upt nrt opts|self meth].
  - left. destruct (construct_engines addr m upt nrt opts s) as [->|[mid ->]];
      [exact Hl|].
    rewrite lookup_insert_ne; [exact Hl|].
    intros Heq. rewrite <- Heq, fresh_engine in Hl. discriminate.
  - unfold step, run.
    destruct (perform_engines self meth s) as [->|[_ ->]]; [by left|].
    rewrite lookup_alter. destruct (decide (self = l)) as [->|];
      [right; by rewrite Hl|by left].
Qed.

Lemma step_well_formed a (s : State world) :
  well_formed s -> well_formed (step a s).
Proof.
  intros Hwf l o' Hl'.
  destruct (engines s !! l) as [o|] eqn:Hl.
  - specialize (Hwf l o Hl).
    destruct (step_attributes a l o s Hl) as [Heq|Heq];
      rewrite Heq in Hl'; injection Hl' as <-; [exact Hwf|].
    destruct Hwf as (_ & Hm & Hg). by split.
  - destruct a as [addr m upt nrt opts|self meth].
    + destruct (construct_engines addr m upt nrt opts s) as [Heq|[mid Heq]];
        rewrite Heq in Hl'; [congruence|].
      rewrite lookup_insert in Hl'. destruct (decide _) as [<-|];
        [|congruence].
      injection Hl' as <-. by split.
    + unfold step, run in Hl'.
      destruct (perform_engines self meth s) as [Heq|[_ Heq]];
        rewrite Heq in Hl'; [congruence|].
      rewrite lookup_alter in Hl'.
      destruct (decide (self = l)) as [->|]; rewrite Hl in Hl'; discriminate.
Qed.

Lemma steps_well_formed acts (s : State world) :
  well_formed s -> well_formed (steps acts s).
Proof.
  revert s. induction acts as [|a acts IH]; intros s Hwf; [exact Hwf|].
  cbn. apply IH. by apply step_well_formed.
Qed.

Lemma steps_attributes acts l o (s : State world) :
  engines s !! l = Some o ->
  exists o', engines (steps acts s) !! l = Some o' /\
             _mid o' = _mid o /\ _logger o' = _logger o.
Proof.
  revert s o. induction acts as [|a acts IH]; intros s o Hl; [by exists o|].
  cbn. destruct (step_attributes a l o s Hl) as [Hs|Hs];
    destruct (IH _ _ Hs) as (o' & Ho' & Hm & Hg); exists o'; done.
Qed.

End EngineAttributes.

(** X5.  Starting from a heap whose engines are all fully built (the empty
    heap, for one), every sequence of constructions and method calls,
    returning or raising, leads to a heap whose engines are all fully built:
    each has [_finalized], [_mid] and a [_logger] that refers back to it.  On
    such a heap the properties [mid] and [logger] of an existing engine
    return. *)
Theorem engines_stay_fully_built {world : Type} `{Host world}
    (acts : list action) (s : State world) :
  well_formed s ->
  well_formed (steps acts s) /\
  forall self,
    is_Some (engines (steps acts s) !! self) ->
    (exists mid, Engine.mid self (steps acts s) = (inr mid, steps acts s)) /\
    Engine.logger self (steps acts s)
    = (inr {| logger_engine := self |}, steps acts s).
Proof.
  intros Hwf. pose proof (steps_well_formed acts s Hwf) as Hwf'.
  split; [exact Hwf'|].
  intros self [o Ho]. destruct (Hwf' self o Ho) as (_ & [mid Hm] & Hg).
  unfold Engine.mid, Engine.logger, getattr. rewrite Ho. cbn.
  rewrite Hm, Hg. split; [by exists mid|reflexivity].
Qed.

(** X6.  The session handle of an engine never changes: after any sequence
    of constructions and method calls, on this engine or on others, returning
    or raising, the engine still exists and holds the session it held. *)
Theorem session_handle_stable {world : Type} `{Host world}
    (acts : list action) (self : loc) (mid : margo_instance_id)
    (s : State world) :
  session_of s self = Some mid ->
  session_of (steps acts s) self = Some mid.
Proof.
  unfold session_of. intros Hmid.
  destruct (engines s !! self) as [o|] eqn:Ho; [|discriminate].
  destruct (steps_attributes acts self o s Ho) as (o' & -> & Hm & _).
  cbn in *. by rewrite Hm.
Qed.

(** X7.  Engines are independent objects.  A method called on one engine
    changes no attribute of any other engine (finalizing one does not
    finalize another); a construction changes no attribute of the engines
    that exist, and the engine it returns is none of them. *)
Theorem other_engines_untouched {world : Type} `{Host world}
    (s : State world) (l : loc) :
  (forall self meth,
      l <> self ->
      engines (step (Invoke self meth) s) !! l = engines s !! l) /\
  (forall addr m upt nrt opts,
      is_Some (engines s !! l) ->
      engines (step (Construct addr m upt nrt opts) s) !! l
      = engines s !! l) /\
  (forall addr m upt nrt opts e s',
      Engine.new addr m upt nrt opts s = (inr e, s') ->
      is_Some (engines s !! l) -> e <> l).
Proof.
  split; [|split].
  - intros self meth Hne. unfold step, run.
    destruct (perform_engines self meth s) as [->|[_ ->]]; [reflexivity|].
    apply lookup_alter_ne. congruence.
  - intros addr m upt nrt opts [o Ho].
    destruct (construct_engines addr m upt nrt opts s) as [->|[mid ->]];
      [reflexivity|].
    apply lookup_insert_ne. intros Heq.
    rewrite <- Heq, fresh_engine in Ho. discriminate.
  - intros addr m upt nrt opts e s' Hnew [o Ho] ->.
    pose proof (new_run addr m upt nrt opts s) as Hrun. cbn zeta in Hrun.
    rewrite Hrun in Hnew.
    destruct (ext_call _ (ext s)) as [[x|mid] w]; [discriminate|].
    injection Hnew as Hl _. rewrite <- Hl, fresh_engine in Ho. discriminate.
Qed.

(** X8.  An action that raises changes no attribute of any engine and
    creates no engine: a failed construction leaves no object behind, and a
    method that raises, [finalize] included, has assigned nothing. *)
Theorem failed_action_changes_no_engine {world : Type} `{Host world}
    (a : action) (e : exn) (s : State world) :
  (run a s).1 = inl e -> engines (run a s).2 = engines s.
Proof.
  destruct a as [addr m upt nrt opts|self meth]; cbn [run].
  - unfold void, bind.
    pose proof (new_run addr m upt nrt opts s) as Hnew. cbn zeta in Hnew.
    rewrite Hnew.
    destruct (ext_call _ (ext s)) as [[x|mid] w]; [reflexivity|discriminate].
  - apply perform_raises_engines.
Qed.

(** ** Addresses handed out by the code *)

Section OwnedAddresses.
Context {world : Type} `{Host world}.

Lemma del_owned_issued mid h (s : State world) :
  issued (Address.__del__ (Address.__init__ mid h true)) s
  = [_pymargo.addr_free mid h].
Proof.
  apply issued_app. unfold Address.__del__. cbn. by rewrite invoke_eq.
Qed.

End OwnedAddresses.

(** X3.  [Engine.lookup] and [Engine.addr] issue one call on the engine's
    session and assign no attribute.  When the call raises, they raise the
    same exception; when it returns a handle, they return an address that
    carries the engine's session and that handle with [_need_del] true, so
    that its destructor releases that handle on that session.  The property
    [address] is [addr]. *)
Theorem lookup_returns_owned_address {world : Type} `{Host world}
    (self : loc) (mid : margo_instance_id) (straddr : string)
    (s : State world) :
  session_of s self = Some mid ->
  let found := Engine.lookup self straddr s in
  let own := Engine.addr self s in
  issued (Engine.lookup self straddr) s = [_pymargo.lookup mid straddr] /\
  engines found.2 = engines s /\
  match (ext_call (_pymargo.lookup mid straddr) (ext s)).1 with
  | inl e => found.1 = inl e
  | inr h =>
      found.1 = inr (Address.__init__ mid h true) /\
      issued (Address.__del__ (Address.__init__ mid h true)) found.2
      = [_pymargo.addr_free mid h]
  end /\
  issued (Engine.addr self) s = [_pymargo.addr_self mid] /\
  engines own.2 = engines s /\
  match (ext_call (_pymargo.addr_self mid) (ext s)).1 with
  | inl e => own.1 = inl e
  | inr h =>
      own.1 = inr (Address.__init__ mid h true) /\
      issued (Address.__del__ (Address.__init__ mid h true)) own.2
      = [_pymargo.addr_free mid h]
  end /\
  Engine.address self s = own.
Proof.
  intros Hmid. cbn zeta.
  rewrite (lookup_run self mid straddr s Hmid), (addr_run self mid s Hmid).
  split_and!.
  - apply issued_app. rewrite (lookup_run self mid straddr s Hmid).
    by destruct (ext_call _ (ext s)) as [[e|h] w].
  - by destruct (ext_call _ (ext s)) as [[e|h] w].
  - destruct (ext_call _ (ext s)) as [[e|h] w]; [reflexivity|].
    split; [reflexivity|apply del_owned_issued].
  - apply issued_app. rewrite (addr_run self mid s Hmid).
    by destruct (ext_call _ (ext s)) as [[e|h] w].
  - by destruct (ext_call _ (ext s)) as [[e|h] w].
  - destruct (ext_call _ (ext s)) as [[e|h] w]; [reflexivity|].
    split; [reflexivity|apply del_owned_issued].
  - unfold Engine.address. apply (addr_run self mid s Hmid).
Qed.

(** X9.  [Address.copy] on any address, owned or borrowed, issues one
    [addr_dup] on the address's own session.  When it raises, [copy] raises
    the same exception; when it returns a handle, the copy carries the same
    session and the new handle with [_need_del] true, whatever the flag of
    the original, and the destructor of the copy releases the new handle, not
    the original one. *)
Theorem copy_is_owned_duplicate {world : Type} `{Host world}
    (a : Address.t) (s : State world) :
  let c := _pymargo.addr_dup (Address._mid a) (Address._hg_addr a) in
  let r := Address.copy a s in
  issued (Address.copy a) s = [c] /\
  engines r.2 = engines s /\
  match (ext_call c (ext s)).1 with
  | inl e => r.1 = inl e
  | inr h =>
      r.1 = inr (Address.__init__ (Address._mid a) h true) /\
      issued (Address.__del__ (Address.__init__ (Address._mid a) h true)) r.2
      = [_pymargo.addr_free (Address._mid a) h]
  end.
Proof.
  cbn zeta. pose proof (copy_run a s) as Hrun. cbn zeta in Hrun.
  split_and!.
  - apply issued_app. rewrite Hrun.
    by destruct (ext_call _ (ext s)) as [[e|h] w].
  - rewrite Hrun. by destruct (ext_call _ (ext s)) as [[e|h] w].
  - rewrite Hrun. destruct (ext_call _ (ext s)) as [[e|h] w]; [reflexivity|].
    split; [reflexivity|apply del_owned_issued].
Qed.

(** X10.  [Handle.get_addr] reads the session of the handle, then its
    address, then duplicates the address, and stops at the first of these
    calls that raises, with that call's exception.  When all three return it
    returns the duplicate, with the handle's session and [_need_del] true.
    In no case does it release an address. *)
Theorem get_addr_outcome {world : Type} `{Host world}
    (h : Handle) (s : State world) :
  let c1 := _pymargo.Handle_get_mid h in
  let c2 := _pymargo.Handle_get_hg_addr h in
  let r := __Handler_get_Address h s in
  frees_nothing (issued (__Handler_get_Address h) s) /\
  engines r.2 = engines s /\
  match ext_call c1 (ext s) with
  | (inl e, _) =>
      r.1 = inl e /\ issued (__Handler_get_Address h) s = [c1]
  | (inr mid, w1) =>
      match ext_call c2 w1 with
      | (inl e, _) =>
          r.1 = inl e /\ issued (__Handler_get_Address h) s = [c1; c2]
      | (inr b, w2) =>
          issued (__Handler_get_Address h) s
          = [c1; c2; _pymargo.addr_dup mid b] /\
          r.1 = match (ext_call (_pymargo.addr_dup mid b) w2).1 with
                | inl e => inl e
                | inr d => inr (Address.__init__ mid d true)
                end
      end
  end.
Proof.
  cbn zeta. pose proof (handler_run h s) as Hrun. cbn zeta in Hrun.
  assert (Hcases :
    engines (__Handler_get_Address h s).2 = engines s /\
    match ext_call (_pymargo.Handle_get_mid h) (ext s) with
    | (inl e, _) =>
        (__Handler_get_Address h s).1 = inl e /\
        issued (__Handler_get_Address h) s = [_pymargo.Handle_get_mid h]
    | (inr mid, w1) =>
        match ext_call (_pymargo.Handle_get_hg_addr h) w1 with
        | (inl e, _) =>
            (__Handler_get_Address h s).1 = inl e /\
            issued (__Handler_get_Address h) s
            = [_pymargo.Handle_get_mid h; _pymargo.Handle_get_hg_addr h]
        | (inr b, w2) =>
            issued (__Handler_get_Address h) s
            = [_pymargo.Handle_get_mid h; _pymargo.Handle_get_hg_addr h;
               _pymargo.addr_dup mid b] /\
            (__Handler_get_Address h s).1
            = match (ext_call (_pymargo.addr_dup mid b) w2).1 with
              | inl e => inl e
              | inr d => inr (Address.__init__ mid d true)
              end
        end
    end).
  { destruct (ext_call _ (ext s)) as [[e|mid] w1].
    { split; [by rewrite Hrun|]. split; [by rewrite Hrun|].
      apply issued_app. by rewrite Hrun. }
    destruct (ext_call _ w1) as [[e|b] w2].
    { split; [by rewrite Hrun|]. split; [by rewrite Hrun|].
      apply issued_app. rewrite Hrun. cbn. by rewrite <- app_assoc. }
    rewrite copy_run in Hrun. cbn [ext engines calls] in Hrun.
    cbn [Address.__init__ Address._mid Address._hg_addr] in Hrun.
    split; [|split].
    - rewrite Hrun. by destruct (ext_call _ w2) as [[e|d] w3].
    - apply issued_app. rewrite Hrun.
      destruct (ext_call _ w2) as [[e|d] w3]; cbn; by rewrite <- !app_assoc.
    - rewrite Hrun. by destruct (ext_call _ w2) as [[e|d] w3]. }
  destruct Hcases as [Heng Hcases].
  split; [|split; [exact Heng|exact Hcases]].
  destruct (ext_call _ (ext s)) as [[e|mid] w1].
  { destruct Hcases as [_ ->]. intros m a [?|[]]. discriminate. }
  destruct (ext_call _ w1) as [[e|b] w2].
  { destruct Hcases as [_ ->]. intros m a [?|[?|[]]]; discriminate. }
  destruct Hcases as [-> _]. intros m a [?|[?|[?|[]]]]; discriminate.
Qed.

(** ** The logger of an engine *)

(** X11.  On a fully built engine holding the session [mid],
    [e.logger.<level>(msg)] issues exactly one call, the function of the
    extension that has the name of the level, with [msg] and [mid]; it
    raises when that call raises and returns otherwise, and assigns no
    attribute. *)
Theorem logger_logs_on_own_session {world : Type} `{Host world}
    (self : loc) (o : EngineObj) (mid : margo_instance_id)
    (lvl : logging.level) (msg : string) (s : State world) :
  engines s !! self = Some o ->
  fully_built self o ->
  _mid o = Some mid ->
  let c := level_call lvl msg mid in
  let r := log_through_engine self lvl msg s in
  issued (log_through_engine self lvl msg) s = [c] /\
  call_session c = Some mid /\
  r.1 = outcome (ext_call c (ext s)).1 /\
  engines r.2 = engines s.
Proof.
  intros Ho (_ & _ & Hg) Hm. cbn zeta.
  assert (Hrun : log_through_engine self lvl msg s
                 = (outcome (ext_call (level_call lvl msg mid) (ext s)).1,
                    mkState (engines s)
                      (ext_call (level_call lvl msg mid) (ext s)).2
                      (calls s ++ [level_call lvl msg mid]))).
  { unfold log_through_engine, Engine.logger. rewrite bind_getattr, Ho.
    cbn [mbind option_bind]. rewrite Hg.
    destruct lvl; cbn [EngineLogger_log level_call logger_engine];
      unfold Engine.EngineLogger_trace, Engine.EngineLogger_debug,
        Engine.EngineLogger_info, Engine.EngineLogger_warning,
        Engine.EngineLogger_error, Engine.EngineLogger_critical, Engine.mid,
        bind, getattr, invoke;
      cbn [logger_engine]; rewrite Ho; cbn [mbind option_bind]; rewrite Hm;
      destruct (ext_call _ (ext s)) as [[e|[]] w]; reflexivity. }
  rewrite Hrun. split_and!; try reflexivity.
  - apply issued_app. by rewrite Hrun.
  - by destruct lvl.
Qed.

(** ** Providers *)

(** X12.  A provider can only register handlers: [Provider.register] without
    a method name raises [RuntimeError] and calls nothing, in any state, and
    with a method name, on an engine holding the session [mid], it issues
    [_pymargo.register] with the provider's id and the provider itself as
    the object.  [Provider.registered] always asks
    [_pymargo.registered_provider] with the provider's id, also when that id
    is 0, and never [_pymargo.registered]. *)
Theorem provider_calls_are_scoped {world : Type} `{Host world}
    (p : Provider.t) (rpc_name : string) (s : State world) :
  Provider.register p rpc_name None s
  = (inl (RuntimeError
            "Both method name and object instance should be provided"), s) /\
  forall mid,
    session_of s (Provider.get_engine p) = Some mid ->
    (forall mn,
        issued (Provider.register p rpc_name (Some mn)) s
        = [_pymargo.register mid rpc_name (Provider.get_provider_id p)
                             (PyProvider (Provider.get_engine p)
                                         (Provider.get_provider_id p)) mn]) /\
    issued (Provider.registered p rpc_name) s
    = [_pymargo.registered_provider mid rpc_name
                                    (Provider.get_provider_id p)].
Proof.
  split; [reflexivity|].
  intros mid Hmid. unfold Provider.get_engine, Provider.get_provider_id in *.
  split; [intros mn|]; apply issued_app.
  - unfold Provider.register.
    rewrite (register_server_run _ mid _ _ _ _ _ Hmid), invoke_eq.
    reflexivity.
  - unfold Provider.registered.
    rewrite (registered_provider_run _ mid _ _ _ Hmid), invoke_eq.
    reflexivity.
Qed.

(** ** The calls of a whole run *)

Section RunCalls.
Context {world : Type} `{Host world}.

Lemma perform_calls self meth (s : State world) :
  calls (perform self meth s).2
  = calls s ++ match session_of s self with
               | Some mid => requests mid (flag s self) meth
               | None => []
               end.
Proof.
  destruct (session_of s self) as [mid|] eqn:Hmid.
  - pose proof (perform_issued self mid meth s Hmid) as Hi.
    assert (Hfin : calls (Engine.finalize self s).2
                   = calls s ++ [_pymargo.finalize mid]).
    { rewrite (finalize_run self mid s Hmid).
      by destruct (ext_call _ (ext s)) as [[e|x] w]. }
    unfold session_of in Hmid. unfold requests, flag.
    destruct meth as [ | | | | | | | | |n [o|] [mn|] p|n [p|]| | | | | | | | | | | | | ];
      cbn [consults_flag request];
      first
        [ cbn [perform]; unfold Engine.__del__, Engine.__exit__;
          rewrite bind_getattr;
          destruct (engines s !! self ≫= _finalized) as [[|]|];
          first [ exact Hfin | cbn; by rewrite app_nil_r ]
        | rewrite app_nil_r; forward_case Hmid;
          try (destruct (engines s !! self ≫= _logger));
          reflexivity
        | forward_case Hmid;
          destruct (ext_call _ (ext s)) as [[e|v] w];
          forward_case Hmid; reflexivity ].
  - unfold session_of in Hmid. rewrite app_nil_r.
    destruct meth as [ | | | | | | | | |n [o|] [mn|] p|n [p|]| | | | | | | | | | | | | ];
      first
        [ cbn [perform]; unfold Engine.__del__, Engine.__exit__;
          rewrite bind_getattr;
          destruct (engines s !! self ≫= _finalized) as [[|]|];
          cbn [negb]; forward_case Hmid; reflexivity
        | forward_case Hmid;
          try (destruct (engines s !! self ≫= _logger));
          reflexivity ].
Qed.

Lemma construct_calls addr m upt nrt opts (s : State world) :
  calls (step (Construct addr m upt nrt opts) s)
  = calls s ++ [init_request addr m upt nrt opts].
Proof.
  unfold step, run, void, bind.
  pose proof (new_run addr m upt nrt opts s) as Hnew. cbn zeta in Hnew.
  rewrite Hnew. by destruct (ext_call _ (ext s)) as [[e|mid] w].
Qed.

Lemma held_step a mid (s : State world) :
  held s mid -> held (step a s) mid.
Proof.
  intros [l Hl]. exists l. unfold session_of in *.
  destruct (engines s !! l) as [o|] eqn:Ho; [|discriminate].
  destruct (step_attributes a l o s Ho) as [->| ->]; exact Hl.
Qed.

Lemma held_steps acts mid (s : State world) :
  held s mid -> held (steps acts s) mid.
Proof.
  revert s. induction acts as [|a acts IH]; intros s Hh; [exact Hh|].
  cbn. apply IH. by apply held_step.
Qed.

(** The calls of one action: an [init], or calls on a session held by an
    engine of the heap. *)
Lemma step_calls a (s : State world) :
  exists l,
    calls (step a s) = calls s ++ l /\
    forall c, In c l ->
      (exists addr m upt nrt opt, c = _pymargo.init addr m upt nrt opt) \/
      (exists mid, call_session c = Some mid /\ held s mid).
Proof.
  destruct a as [addr m upt nrt opts|self meth].
  - eexists. split; [apply construct_calls|].
    intros c [<-|[]]. left. unfold init_request. by eexists _, _, _, _, _.
  - unfold step, run. eexists. split; [apply perform_calls|].
    destruct (session_of s self) as [mid|] eqn:Hmid; [|intros c []].
    intros c Hc. right. exists mid. split; [|by exists self].
    unfold requests in Hc. destruct (consults_flag meth).
    + destruct (flag s self) as [[|]|]; try contradiction.
      by destruct Hc as [<-|[]].
    + destruct (request mid meth) as [c0|] eqn:Hreq; [|contradiction].
      destruct Hc as [<-|[]]. by apply (request_session mid meth).
Qed.

End RunCalls.

(** X13.  Over any sequence of constructions and method calls, returning or
    raising, everything the engines ask of the extension is an [init] or a
    call on the session of an engine that is in the heap at the end of the
    run: the log only grows, and no call is ever made on a session handle
    that no engine holds. *)
Theorem run_calls_are_on_held_sessions {world : Type} `{Host world}
    (acts : list action) (s : State world) :
  calls (steps acts s) = calls s ++ since (calls s) (steps acts s) /\
  forall c, In c (since (calls s) (steps acts s)) ->
    (exists addr m upt nrt opt, c = _pymargo.init addr m upt nrt opt) \/
    (exists mid, call_session c = Some mid /\ held (steps acts s) mid).
Proof.
  assert (Hall : exists l,
    calls (steps acts s) = calls s ++ l /\
    forall c, In c l ->
      (exists addr m upt nrt opt, c = _pymargo.init addr m upt nrt opt) \/
      (exists mid, call_session c = Some mid /\ held (steps acts s) mid)).
  { revert s. induction acts as [|a acts IH]; intros s.
    - exists []. split; [by rewrite app_nil_r|]. intros c [].
    - cbn [steps fold_left]. fold (steps acts (step a s)).
      destruct (step_calls a s) as (l1 & Hl1 & Hc1).
      destruct (IH (step a s)) as (l2 & Hl2 & Hc2).
      exists (l1 ++ l2). split; [by rewrite Hl2, Hl1, app_assoc|].
      intros c Hc. apply in_app_or in Hc as [Hc|Hc]; [|by apply Hc2].
      destruct (Hc1 c Hc) as [Hinit|(mid & Hm & Hh)]; [by left|].
      right. exists mid. split; [exact Hm|].
      apply held_steps. by apply held_step. }
  destruct Hall as (l & Hl & Hc).
  assert (Hs : since (calls s) (steps acts s) = l)
    by (unfold since; rewrite Hl; apply drop_app_length).
  rewrite Hs. split; [exact Hl|exact Hc].
Qed.

(** * The further properties on example runs *)

(** X1 on a run. *)
Lemma silent_after_finalization_run :
  Engine.finalize (H := Scripted.permissive) 0%N Run.live
  = (inr tt, Run.finalized) /\
  Engine.__del__ (H := Scripted.permissive) 0%N Run.finalized
  = (inr tt, Run.finalized).
Proof.
  assert (Hfin : Engine.finalize (H := Scripted.permissive) 0%N Run.live
                 = (inr tt, Run.finalized)) by (vm_compute; reflexivity).
  split; [exact Hfin|].
  exact (proj1 (proj2 (silent_after_finalization
                         (H := Scripted.permissive) 0%N Run.live
                         Run.finalized (or_introl Hfin)))).
Defined.

(** X2 on a run. *)
Lemma exit_finalizes_once_run :
  flag Run.live 0%N = Some false /\
  session_of Run.live 0%N = Some 1%N /\
  issued (Engine.__exit__ (H := Scripted.permissive) 0%N) Run.live
  = [_pymargo.finalize 1%N].
Proof.
  assert (Hf : flag Run.live 0%N = Some false) by (vm_compute; reflexivity).
  assert (Hmid : session_of Run.live 0%N = Some 1%N)
    by (vm_compute; reflexivity).
  split; [exact Hf|]. split; [exact Hmid|].
  exact (proj1 (proj2 (exit_finalizes_once (H := Scripted.permissive)
                         0%N 1%N Run.live Hf Hmid))).
Defined.

(** X3 on a run. *)
Lemma lookup_returns_owned_address_run :
  session_of Run.live 0%N = Some 1%N /\
  issued (Engine.lookup (H := Scripted.permissive) 0%N Run.peer) Run.live
  = [_pymargo.lookup 1%N Run.peer].
Proof.
  assert (Hmid : session_of Run.live 0%N = Some 1%N)
    by (vm_compute; reflexivity).
  split; [exact Hmid|].
  exact (proj1 (lookup_returns_owned_address (H := Scripted.permissive)
                  0%N 1%N Run.peer Run.live Hmid)).
Defined.

(** X4 on a run. *)
Lemma operations_use_own_session_run :
  session_of Run.live 0%N = Some 1%N /\
  (length (issued (perform (H := Scripted.permissive) 0%N
                           (m_lookup Run.peer)) Run.live) <= 1)%nat.
Proof.
  assert (Hmid : session_of Run.live 0%N = Some 1%N)
    by (vm_compute; reflexivity).
  split; [exact Hmid|].
  exact (proj1 (operations_use_own_session (H := Scripted.permissive)
                  0%N 1%N (m_lookup Run.peer) Run.live Hmid)).
Defined.

(** X5 on a run: from the empty heap. *)
Lemma engines_stay_fully_built_run :
  well_formed Scripted.start /\
  well_formed
    (steps (H := Scripted.permissive)
       [Construct "na+sm" server false 0 (OptStr "");
        Invoke 0%N m_finalize; Invoke 0%N (m_lookup Run.peer)]
       Scripted.start).
Proof.
  assert (Hwf : well_formed Scripted.start).
  { intros l o Hl. cbn in Hl. rewrite lookup_empty in Hl. discriminate. }
  split; [exact Hwf|].
  exact (proj1 (engines_stay_fully_built (H := Scripted.permissive) _
                  Scripted.start Hwf)).
Defined.

(** X6 on a run. *)
Lemma session_handle_stable_run :
  session_of Run.live 0%N = Some 1%N /\
  session_of
    (steps (H := Scripted.permissive)
       [Invoke 0%N m_finalize;
        Construct "na+sm" client false 0 (OptStr ""); Invoke 0%N m_del]
       Run.live) 0%N = Some 1%N.
Proof.
  assert (Hmid : session_of Run.live 0%N = Some 1%N)
    by (vm_compute; reflexivity).
  split; [exact Hmid|].
  exact (session_handle_stable (H := Scripted.permissive) _ 0%N 1%N
           Run.live Hmid).
Defined.

(** X7 on a run: two engines [e] and [f] on the reference extension, each
    with its own session.  The construction of [f] returns a place that is
    not the one of [e]; [f.finalize()] returns and sets the flag of [f], and
    [e] is as it was, not finalized. *)
Lemma other_engines_untouched_run :
  Engine.new "na+sm" client false 0 (OptStr "") Run.ref_live
  = (inr 1%N, Run.ref_two) /\
  is_Some (engines Run.ref_live !! 0%N) /\
  1%N <> 0%N /\
  session_of Run.ref_two 0%N = Some 0%N /\
  session_of Run.ref_two 1%N = Some 1%N /\
  flag Run.ref_two 0%N = Some false /\
  flag Run.ref_two 1%N = Some false /\
  (run (Invoke 1%N m_finalize) Run.ref_two).1 = inr tt /\
  flag (step (Invoke 1%N m_finalize) Run.ref_two) 1%N = Some true /\
  flag (step (Invoke 1%N m_finalize) Run.ref_two) 0%N = Some false /\
  engines (step (Invoke 1%N m_finalize) Run.ref_two) !! 0%N
  = engines Run.ref_two !! 0%N.
Proof.
  assert (Hnew : Engine.new "na+sm" client false 0 (OptStr "") Run.ref_live
                 = (inr 1%N, Run.ref_two)) by (vm_compute; reflexivity).
  assert (Hsome : is_Some (engines Run.ref_live !! 0%N))
    by (vm_compute; eexists; reflexivity).
  pose proof (proj2 (proj2 (other_engines_untouched Run.ref_live 0%N))
                _ _ _ _ _ _ _ Hnew Hsome) as Hne.
  pose proof (proj1 (other_engines_untouched Run.ref_two 0%N)
                1%N m_finalize (fun Heq => Hne (eq_sym Heq))) as Hkept.
  split; [exact Hnew|]. split; [exact Hsome|]. split; [exact Hne|].
  split; [vm_compute; reflexivity|]. split; [vm_compute; reflexivity|].
  split; [vm_compute; reflexivity|]. split; [vm_compute; reflexivity|].
  split; [vm_compute; reflexivity|]. split; [vm_compute; reflexivity|].
  split; [|exact Hkept].
  unfold flag. rewrite Hkept. vm_compute. reflexivity.
Defined.

(** X8 on a run: [finalize] on an extension whose [finalize] fails. *)
Lemma failed_action_changes_no_engine_run :
  (run (H := Run.failing_finalize) (Invoke 0%N m_finalize) Run.live).1
  = inl (MargoException "scripted failure") /\
  engines (run (H := Run.failing_finalize) (Invoke 0%N m_finalize)
               Run.live).2
  = engines Run.live.
Proof.
  assert (Hfail : (run (H := Run.failing_finalize) (Invoke 0%N m_finalize)
                       Run.live).1
                  = inl (MargoException "scripted failure"))
    by (vm_compute; reflexivity).
  split; [exact Hfail|].
  exact (failed_action_changes_no_engine (H := Run.failing_finalize)
           _ _ Run.live Hfail).
Defined.

(** X11 on a run. *)
Lemma logger_logs_on_own_session_run :
  engines Run.live !! 0%N = Some (constructed 0%N 1%N) /\
  fully_built 0%N (constructed 0%N 1%N) /\
  issued (log_through_engine (H := Scripted.permissive) 0%N logging.warning
                             "slow peer") Run.live
  = [_pymargo.warning "slow peer" 1%N].
Proof.
  assert (Ho : engines Run.live !! 0%N = Some (constructed 0%N 1%N))
    by (vm_compute; reflexivity).
  assert (Hb : fully_built 0%N (constructed 0%N 1%N))
    by (split; [|split]; cbn; [by eexists|by eexists|reflexivity]).
  split; [exact Ho|]. split; [exact Hb|].
  exact (proj1 (logger_logs_on_own_session (H := Scripted.permissive)
                  0%N _ 1%N logging.warning "slow peer" Run.live Ho Hb
                  eq_refl)).
Defined.

(** X12 on a run. *)
Lemma provider_calls_are_scoped_run :
  let p := Provider.__init__ 0%N 0 in
  session_of Run.live (Provider.get_engine p) = Some 1%N /\
  issued (Provider.registered (H := Scripted.permissive) p "echo") Run.live
  = [_pymargo.registered_provider 1%N "echo" 0].
Proof.
  cbv zeta.
  assert (Hmid : session_of Run.live
                   (Provider.get_engine (Provider.__init__ 0%N 0))
                 = Some 1%N) by (vm_compute; reflexivity).
  split; [exact Hmid|].
  exact (proj2 (proj2 (provider_calls_are_scoped (H := Scripted.permissive)
                         (Provider.__init__ 0%N 0) "echo" Run.live)
                  1%N Hmid)).
Defined.

(** X13 on a run. *)
Lemma run_calls_are_on_held_sessions_run :
  let acts := [Construct "na+sm" server false 0 (OptStr "");
               Invoke 0%N (m_lookup Run.peer)] in
  let final := steps (H := Scripted.permissive) acts Scripted.start in
  In (_pymargo.lookup 1%N Run.peer) (since (calls Scripted.start) final) /\
  ((exists addr m upt nrt opt,
       _pymargo.lookup 1%N Run.peer = _pymargo.init addr m upt nrt opt) \/
   (exists mid,
       call_session (_pymargo.lookup 1%N Run.peer) = Some mid /\
       held final mid)).
Proof.
  cbv zeta.
  assert (Hin : In (_pymargo.lookup 1%N Run.peer)
                   (since (calls Scripted.start)
                      (steps (H := Scripted.permissive)
                         [Construct "na+sm" server false 0 (OptStr "");
                          Invoke 0%N (m_lookup Run.peer)] Scripted.start)))
    by (vm_compute; right; left; reflexivity).
  split; [exact Hin|].
  exact (proj2 (run_calls_are_on_held_sessions (H := Scripted.permissive)
                  _ Scripted.start) _ Hin).
Defined.
